(** * Printer power manager: outage windows and the pause/resume machine

    A shallow embedding of [printer_power_manager_standalone.py].

    Python floats are IEEE binary64 numbers and are modelled by Rocq's
    primitive floats; Python integers are unbounded and are modelled by
    [Z].  The decoded JSON answer of the outage feed is a value of
    [pyval].  Methods that touch the clock, the network or the printer are
    computations of the monad [M]: they thread the manager object and the
    outside world, may raise, and record the scripts sent to the printer. *)

From Stdlib Require Import ZArith String Ascii List Bool Lia.
From Stdlib Require Import Floats DecimalString.
From Stdlib Require Uint63.
From stdpp Require Import base option list strings gmap.

Local Open Scope string_scope.
Local Open Scope Z_scope.

#[local] Set Warnings "-register-all".

(** ** Exceptions and results *)

(** The exception classes the script can meet; all derive from
    [Exception], so every [except Exception] handler catches them. *)
Inductive exn : Type :=
| TypeError
| AttributeError
| ValueError
| OverflowError
| ZeroDivisionError
| KeyError
| RequestException.

Inductive result (A : Type) : Type :=
| Ok (a : A)
| Raise (e : exn).

Arguments Ok {A} a.
Arguments Raise {A} e.

Definition rbind {A B : Type} (r : result A) (k : A -> result B) : result B :=
  match r with
  | Ok a => k a
  | Raise e => Raise e
  end.

Declare Scope result_scope.
Delimit Scope result_scope with res.
Notation "x <- r ;; k" := (rbind r (fun x => k))
  (at level 100, r at next level, right associativity) : result_scope.

Definition is_ok {A : Type} (r : result A) : bool :=
  match r with
  | Ok _ => true
  | Raise _ => false
  end.

(** ** Python numbers *)

(** [int / int]: true division of two integers is the correctly rounded
    quotient (CPython's [long_true_divide]); it raises on a zero divisor
    and when the quotient is too large for a float. *)
Definition int_truediv_sf (a b : Z) : spec_float :=
  match a with
  | Z0 => S754_zero (b <? 0)
  | _ =>
    let '(mz, ez, lz) := SFdiv_core_binary prec emax (Z.abs a) 0 (Z.abs b) 0 in
    binary_round_aux prec emax (xorb (a <? 0) (b <? 0)) mz ez lz
  end.

Definition int_truediv (a b : Z) : result float :=
  if b =? 0 then Raise ZeroDivisionError
  else
    let q := SF2Prim (int_truediv_sf a b) in
    if is_infinity q then Raise OverflowError else Ok q.

(** [float(n)] for an integer [n] that fits: the nearest float.  It is
    used for the integer operands of mixed arithmetic ([now.hour + ...],
    [... * 60], [x % 1]), all far below 2^1024 where Python would raise. *)
Definition float_of_int (n : Z) : float :=
  SF2Prim (binary_normalize prec emax n 0 false).

(** [int(x)] for a float: truncation toward zero; NaN and the infinities
    raise. *)
Definition py_int (x : float) : result Z :=
  match Prim2SF x with
  | S754_nan => Raise ValueError
  | S754_infinity _ => Raise OverflowError
  | S754_zero _ => Ok 0
  | S754_finite s m e => Ok (cond_Zopp s (Z.shiftl (Zpos m) e))
  end.

(** C's [fmod(x, 1.0)]: the fractional part with the sign of [x], exact;
    NaN when [x] is not finite. *)
Definition fmod1 (x : float) : float :=
  match Prim2SF x with
  | S754_nan | S754_infinity _ => nan
  | S754_zero s => SF2Prim (S754_zero s)
  | S754_finite s m e =>
    match (if (0 <=? e)%Z then 0%Z else Z.land (Zpos m) (Z.ones (- e))) with
    | Zpos r => SF2Prim (S754_finite s r e)
    | _ => SF2Prim (S754_zero s)
    end
  end.

(** [x % 1] on floats (CPython's [float_rem] with divisor 1.0): the
    remainder takes the sign of the divisor. *)
Definition py_mod1 (x : float) : float :=
  let md := fmod1 x in
  if negb (md =? 0)%float then
    if (md <? 0)%float then (md + 1)%float else md
  else zero.

(** [format(n, "02d")]: decimal digits, zero-padded to width two, the
    sign first. *)
Definition format_02d (n : Z) : string :=
  match n with
  | Z0 => "00"
  | Zpos p =>
    let ds := NilEmpty.string_of_uint (Pos.to_uint p) in
    if (String.length ds <? 2)%nat then "0" ++ ds else ds
  | Zneg p => "-" ++ NilEmpty.string_of_uint (Pos.to_uint p)
  end.

(** The clock text [f"{int(x):02d}:{int((x % 1) * 60):02d}"] of a
    fractional hour; it raises when [x] is NaN or infinite. *)
Definition hhmm (x : float) : result string :=
  (h <- py_int x ;;
   m <- py_int (py_mod1 x * float_of_int 60)%float ;;
   Ok (format_02d h ++ ":" ++ format_02d m))%res.

(** ** Python values: the decoded JSON of the outage feed *)

(** What [response.json()] can return.  A [PDict] lists the items of a
    dict, whose keys are distinct. *)
Inductive pyval : Type :=
| PNone
| PBool (b : bool)
| PInt (n : Z)
| PFloat (x : float)
| PStr (s : string)
| PList (l : list pyval)
| PDict (d : list (string * pyval)).

Fixpoint dict_lookup (k : string) (d : list (string * pyval)) : option pyval :=
  match d with
  | [] => None
  | (k', v) :: d' => if String.eqb k' k then Some v else dict_lookup k d'
  end.

(** [v == s] for a string [s]: only an equal string compares equal. *)
Definition py_eq_str (v : pyval) (s : string) : bool :=
  match v with
  | PStr s' => String.eqb s' s
  | _ => false
  end.

(** [v.get(k, dflt)]: only dicts have the method. *)
Definition py_get (v : pyval) (k : string) (dflt : pyval) : result pyval :=
  match v with
  | PDict d => Ok (default dflt (dict_lookup k d))
  | _ => Raise AttributeError
  end.

(** [k in v]: key membership for a dict, element membership for a list,
    substring test for a string. *)
Definition py_contains (k : string) (v : pyval) : result bool :=
  match v with
  | PDict d => Ok (bool_decide (is_Some (dict_lookup k d)))
  | PList l => Ok (existsb (fun x => py_eq_str x k) l)
  | PStr s => Ok (bool_decide (is_Some (String.index 0 k s)))
  | _ => Raise TypeError
  end.

(** [v[k]] for a string [k]: defined on dicts only. *)
Definition py_getitem (v : pyval) (k : string) : result pyval :=
  match v with
  | PDict d =>
    match dict_lookup k d with
    | Some x => Ok x
    | None => Raise KeyError
    end
  | _ => Raise TypeError
  end.

(** The elements a [for] loop over [v] visits: the items of a list, the
    keys of a dict, the characters of a string. *)
Definition py_iter (v : pyval) : result (list pyval) :=
  match v with
  | PList l => Ok l
  | PDict d => Ok (map (fun kv => PStr (fst kv)) d)
  | PStr s => Ok (map (fun a => PStr (String a EmptyString)) (list_ascii_of_string s))
  | _ => Raise TypeError
  end.

(** [v / n] for an integer literal [n]: booleans count as integers. *)
Definition py_truediv (v : pyval) (n : Z) : result float :=
  match v with
  | PInt a => int_truediv a n
  | PBool b => int_truediv (Z.b2z b) n
  | PFloat x => if n =? 0 then Raise ZeroDivisionError else Ok (x / float_of_int n)%float
  | _ => Raise TypeError
  end.

(** ** Configuration *)

Definition PRINTER_GROUP : string := "1.1".
Definition CHECK_INTERVAL : Z := 60.
Definition WAIT_BEFORE : Z := 5.
Definition WAIT_AFTER : Z := 10.
Definition EXTRUDER_TEMP : Z := 200.
Definition BED_TEMP : Z := 60.

(** ** Wall-clock time *)

(** A naive [datetime]: microseconds since the start of its calendar. *)
Record datetime : Type := Datetime { micros : Z }.

Definition hour (t : datetime) : Z := (micros t / 3600000000) mod 24.
Definition minute (t : datetime) : Z := (micros t / 60000000) mod 60.

(** [(a - b).total_seconds()]: the microseconds of the difference,
    divided by 10**6. *)
Definition total_seconds_between (a b : datetime) : result float :=
  int_truediv (micros a - micros b) 1000000.

(** Day [d] at [h:m:s]. *)
Definition at_time (d h m s : Z) : datetime :=
  Datetime ((((d * 24 + h) * 60 + m) * 60 + s) * 1000000).

(** ** The objects *)

Definition interval : Type := float * float.

Record DTEKOutageManager : Type := {
  group : string;
  outages : gmap string (list interval);
  last_update : option datetime
}.

Record PrinterPowerManager : Type := {
  dtek : DTEKOutageManager;
  is_paused : bool;
  pause_start_time : option datetime;
  current_outage : option string
}.

Definition set_outages (o : gmap string (list interval)) (p : PrinterPowerManager)
  : PrinterPowerManager :=
  {| dtek := {| group := group (dtek p); outages := o; last_update := last_update (dtek p) |};
     is_paused := is_paused p;
     pause_start_time := pause_start_time p;
     current_outage := current_outage p |}.

Definition set_last_update (t : option datetime) (p : PrinterPowerManager)
  : PrinterPowerManager :=
  {| dtek := {| group := group (dtek p); outages := outages (dtek p); last_update := t |};
     is_paused := is_paused p;
     pause_start_time := pause_start_time p;
     current_outage := current_outage p |}.

Definition set_is_paused (b : bool) (p : PrinterPowerManager) : PrinterPowerManager :=
  {| dtek := dtek p; is_paused := b;
     pause_start_time := pause_start_time p; current_outage := current_outage p |}.

Definition set_pause_start_time (t : option datetime) (p : PrinterPowerManager)
  : PrinterPowerManager :=
  {| dtek := dtek p; is_paused := is_paused p;
     pause_start_time := t; current_outage := current_outage p |}.

Definition set_current_outage (w : option string) (p : PrinterPowerManager)
  : PrinterPowerManager :=
  {| dtek := dtek p; is_paused := is_paused p;
     pause_start_time := pause_start_time p; current_outage := w |}.

(** [PrinterPowerManager.__init__]. *)
Definition init : PrinterPowerManager :=
  {| dtek := {| group := PRINTER_GROUP; outages := ∅; last_update := None |};
     is_paused := false;
     pause_start_time := None;
     current_outage := None |}.

(** ** The outside world and the monad of methods *)

(** The world answers the script's three kinds of question: the [n]-th
    reading of [datetime.now()], the [n]-th download of the outage feed
    (an exception for a network, status or decoding failure, else the
    decoded JSON), and whether the [n]-th script request to the printer
    went through. *)
Record world : Type := {
  clock : nat -> datetime;
  clock_reads : nat;
  feed : nat -> result pyval;
  feed_reads : nat;
  printer_ok : nat -> bool;
  printer_calls : nat
}.

(** What a run leaves behind for an observer of the printer. *)
Inductive event : Type :=
| Script (script : string)
| Sleep (seconds : Z).

Record state : Type := { self : PrinterPowerManager; env : world }.

Record outcome (A : Type) : Type := {
  value : result A;
  final : state;
  emitted : list event
}.

Arguments value {A} o.
Arguments final {A} o.
Arguments emitted {A} o.

Definition M (A : Type) : Type := state -> outcome A.

Definition ret {A : Type} (a : A) : M A :=
  fun s => {| value := Ok a; final := s; emitted := [] |}.

Definition raise {A : Type} (e : exn) : M A :=
  fun s => {| value := Raise e; final := s; emitted := [] |}.

Definition lift {A : Type} (r : result A) : M A :=
  fun s => {| value := r; final := s; emitted := [] |}.

Definition bind {A B : Type} (m : M A) (k : A -> M B) : M B :=
  fun s =>
    let o := m s in
    match value o with
    | Ok a =>
      let o' := k a (final o) in
      {| value := value o'; final := final o'; emitted := emitted o ++ emitted o' |}
    | Raise e => {| value := Raise e; final := final o; emitted := emitted o |}
    end.

(** [try: m except Exception as e: h e]. *)
Definition try_except {A : Type} (m : M A) (h : exn -> M A) : M A :=
  fun s =>
    let o := m s in
    match value o with
    | Ok a => o
    | Raise e =>
      let o' := h e (final o) in
      {| value := value o'; final := final o'; emitted := emitted o ++ emitted o' |}
    end.

Declare Scope prog_scope.
Delimit Scope prog_scope with prog.
Bind Scope prog_scope with M.
Notation "x <- m ;; k" := (bind m (fun x => k))
  (at level 100, m at next level, right associativity) : prog_scope.
Notation "m ;;; k" := (bind m (fun _ => k))
  (at level 100, right associativity) : prog_scope.

Definition get_self : M PrinterPowerManager :=
  fun s => {| value := Ok (self s); final := s; emitted := [] |}.

Definition update_self (f : PrinterPowerManager -> PrinterPowerManager) : M unit :=
  fun s => {| value := Ok tt; final := {| self := f (self s); env := env s |}; emitted := [] |}.

(** [datetime.now()]. *)
Definition datetime_now : M datetime :=
  fun s =>
    let w := env s in
    {| value := Ok (clock w (clock_reads w));
       final := {| self := self s;
                   env := {| clock := clock w; clock_reads := S (clock_reads w);
                             feed := feed w; feed_reads := feed_reads w;
                             printer_ok := printer_ok w; printer_calls := printer_calls w |} |};
       emitted := [] |}.

(** [requests.get(DTEK_API, timeout=10)], [raise_for_status()] and
    [response.json()]. *)
Definition download_feed : M pyval :=
  fun s =>
    let w := env s in
    {| value := feed w (feed_reads w);
       final := {| self := self s;
                   env := {| clock := clock w; clock_reads := clock_reads w;
                             feed := feed w; feed_reads := S (feed_reads w);
                             printer_ok := printer_ok w; printer_calls := printer_calls w |} |};
       emitted := [] |}.

(** [time.sleep(n)]. *)
Definition sleep (n : Z) : M unit :=
  fun s => {| value := Ok tt; final := s; emitted := [Sleep n] |}.

(** ** DTEKOutageManager *)

(** The loop of [_parse_slots]: [outages] is the list built so far. *)
Fixpoint parse_slots_loop (slots : list pyval) (outages : list interval)
  : result (list interval) :=
  match slots with
  | [] => Ok outages
  | slot :: rest =>
    (ty <- py_get slot "type" PNone ;;
     if py_eq_str ty "Definite" then
       start_minutes <- py_get slot "start" (PInt 0) ;;
       end_minutes <- py_get slot "end" (PInt 0) ;;
       start_hours <- py_truediv start_minutes 60 ;;
       end_hours <- py_truediv end_minutes 60 ;;
       parse_slots_loop rest (outages ++ [(start_hours, end_hours)])
     else parse_slots_loop rest outages)%res
  end.

Definition _parse_slots (slots : pyval) : result (list interval) :=
  (items <- py_iter slots ;; parse_slots_loop items [])%res.

(** [group_data.get(period, {}).get("slots", [])]. *)
Definition period_slots (group_data : pyval) (period : string) : result pyval :=
  (day <- py_get group_data period (PDict []) ;; py_get day "slots" (PList []))%res.

(** The log lines of a refreshed schedule: formatting each bound can
    raise. *)
Fixpoint log_intervals (l : list interval) : result unit :=
  match l with
  | [] => Ok tt
  | (start, end_) :: rest =>
    (_ <- hhmm start ;; _ <- hhmm end_ ;; log_intervals rest)%res
  end.

Definition fetch_outages : M bool :=
  try_except
    (data <- download_feed ;;
     me <- get_self ;;
     found <- lift (py_contains (group (dtek me)) data) ;;
     if negb found then ret false
     else
       group_data <- lift (py_getitem data (group (dtek me))) ;;
       today <- lift (sl <- period_slots group_data "today" ;; _parse_slots sl)%res ;;
       tomorrow <- lift (sl <- period_slots group_data "tomorrow" ;; _parse_slots sl)%res ;;
       update_self (set_outages {[ "today" := today; "tomorrow" := tomorrow ]}) ;;;
       now <- datetime_now ;;
       update_self (set_last_update (Some now)) ;;;
       lift (log_intervals today) ;;;
       lift (log_intervals tomorrow) ;;;
       ret true)%prog
    (fun _ => ret false).

Definition get_current_period : M string :=
  (now <- datetime_now ;;
   if hour now =? 23 then ret "tomorrow" else ret "today")%prog.

(** [now.hour + now.minute / 60]. *)
Definition current_hour_of (now : datetime) : result float :=
  (frac <- int_truediv (minute now) 60 ;; Ok (float_of_int (hour now) + frac)%float)%res.

(** [start - (WAIT_BEFORE / 60)]. *)
Definition pause_point_of (start : float) : result float :=
  (lead <- int_truediv WAIT_BEFORE 60 ;; Ok (start - lead)%float)%res.

Definition window_name_of (start end_ : float) : result string :=
  (a <- hhmm start ;; b <- hhmm end_ ;; Ok (a ++ "-" ++ b))%res.

Definition signal : Type := bool * option string * option float.

(** The [for start, end in outages] loop of [get_next_danger_window]. *)
Fixpoint danger_scan (current_hour : float) (outages : list interval) : result signal :=
  match outages with
  | [] => Ok (false, None, None)
  | (start, end_) :: rest =>
    (pause_point <- pause_point_of start ;;
     window_name <- window_name_of start end_ ;;
     if (current_hour <? pause_point)%float then
       let minutes_until_pause := ((pause_point - current_hour) * float_of_int 60)%float in
       if (minutes_until_pause <=? 1)%float then
         Ok (true, Some window_name, Some minutes_until_pause)
       else Ok (false, None, None)
     else if (current_hour <? end_)%float then
       let minutes_until_end := ((end_ - current_hour) * float_of_int 60)%float in
       Ok (true, Some window_name, Some minutes_until_end)
     else danger_scan current_hour rest)%res
  end.

Definition get_next_danger_window : M signal :=
  (now <- datetime_now ;;
   current_hour <- lift (current_hour_of now) ;;
   period <- get_current_period ;;
   me <- get_self ;;
   lift (danger_scan current_hour (default [] (outages (dtek me) !! period))))%prog.

(** ** MoonrakerClient *)

(** [_call_script]: one HTTP request carrying the script; any failure is
    caught and reported as [False]. *)
Definition _call_script (script : string) : M bool :=
  fun s =>
    let w := env s in
    {| value := Ok (printer_ok w (printer_calls w));
       final := {| self := self s;
                   env := {| clock := clock w; clock_reads := clock_reads w;
                             feed := feed w; feed_reads := feed_reads w;
                             printer_ok := printer_ok w; printer_calls := S (printer_calls w) |} |};
       emitted := [Script script] |}.

Definition newline : string := String (ascii_of_nat 10) EmptyString.

(** [str(n)] for an integer. *)
Definition str_int (n : Z) : string := NilZero.string_of_int (Z.to_int n).

Definition gcode_heat : string :=
  "M104 S" ++ str_int EXTRUDER_TEMP ++ newline ++ "M140 S" ++ str_int BED_TEMP.

Definition gcode_park : string := "M140 S40" ++ newline ++ "M104 S40".

Definition pause_print : M bool := _call_script "PAUSE".

Definition resume_print : M bool :=
  (heated <- _call_script gcode_heat ;;
   if negb heated then ret false
   else sleep 2 ;;; _call_script "RESUME")%prog.

Definition set_heaters_off : M bool := _call_script gcode_park.

(** ** PrinterPowerManager *)

Definition update_outages : M unit :=
  (_ <- fetch_outages ;; ret tt)%prog.

(** [(datetime.now() - self.pause_start_time).total_seconds() / 60];
    subtracting [None] is a [TypeError]. *)
Definition time_paused_of (now : datetime) (started : option datetime) : result float :=
  match started with
  | None => Raise TypeError
  | Some t0 =>
    (secs <- total_seconds_between now t0 ;; Ok (secs / float_of_int 60)%float)%res
  end.

Definition check_and_manage : M unit :=
  (sig <- get_next_danger_window ;;
   let '(is_approaching, window_name, minutes_until) := sig in
   me <- get_self ;;
   if is_approaching && negb (is_paused me) then
     paused <- pause_print ;;
     if paused then
       update_self (set_is_paused true) ;;;
       now <- datetime_now ;;
       update_self (set_pause_start_time (Some now)) ;;;
       update_self (set_current_outage window_name) ;;;
       sleep 1 ;;;
       _ <- set_heaters_off ;;
       ret tt
     else ret tt
   else if is_paused me then
     now <- datetime_now ;;
     time_paused <- lift (time_paused_of now (pause_start_time me)) ;;
     if (float_of_int WAIT_AFTER <=? time_paused)%float then
       resumed <- resume_print ;;
       if resumed then
         update_self (set_is_paused false) ;;;
         update_self (set_pause_start_time None) ;;;
         update_self (set_current_outage None)
       else ret tt
     else ret tt
   else ret tt)%prog.

Definition run_once : M unit :=
  (update_outages ;;; check_and_manage)%prog.

(** ** Vocabulary of the statements *)

(** The successive clock readings of a run started in [s]. *)
Definition reading (n : nat) (s : state) : datetime :=
  clock (env s) (n + clock_reads (env s))%nat.

(** The world after [n] more clock readings. *)
Definition after_reads (n : nat) (w : world) : world :=
  {| clock := clock w; clock_reads := (n + clock_reads w)%nat;
     feed := feed w; feed_reads := feed_reads w;
     printer_ok := printer_ok w; printer_calls := printer_calls w |}.

Definition period_at (t : datetime) : string :=
  if hour t =? 23 then "tomorrow" else "today".

(** The interval list [get_next_danger_window] walks when started in [s]:
    the period is chosen by the second clock reading. *)
Definition schedule_for (s : state) : list interval :=
  default [] (outages (dtek (self s)) !! period_at (reading 1 s)).

(** [WAIT_BEFORE / 60], evaluated. *)
Definition wait_before_hours : float :=
  Eval vm_compute in
    match int_truediv WAIT_BEFORE 60 with
    | Ok q => q
    | Raise _ => nan
    end.

Definition pause_point (start : float) : float := (start - wait_before_hours)%float.

(** The window label of the interval can be written. *)
Definition labelled (iv : interval) : bool :=
  is_ok (window_name_of (fst iv) (snd iv)).

(** At [current_hour] the interval is over: its pause point and its end
    are both behind. *)
Definition already_past (current_hour : float) (iv : interval) : bool :=
  ((pause_point (fst iv) <=? current_hour) && (snd iv <=? current_hour))%float.

Definition minutes_between (a b : float) : float := ((b - a) * float_of_int 60)%float.

Definition sends (script : string) (evs : list event) : bool :=
  existsb (fun e => match e with
                    | Script s => String.eqb s script
                    | Sleep _ => false
                    end) evs.

Definition pause_issued (evs : list event) : bool := sends "PAUSE" evs.

Definition resume_issued (evs : list event) : bool :=
  sends gcode_heat evs || sends "RESUME" evs.

(** The pause session after a successful pause and after a successful
    resume. *)
Definition paused_at (t : datetime) (w : option string) (p : PrinterPowerManager)
  : PrinterPowerManager :=
  set_current_outage w (set_pause_start_time (Some t) (set_is_paused true p)).

Definition cleared (p : PrinterPowerManager) : PrinterPowerManager :=
  set_current_outage None (set_pause_start_time None (set_is_paused false p)).

(** The printer's answer to the [n]-th script request of a run started
    in [s]. *)
Definition printer_answer (n : nat) (s : state) : bool :=
  printer_ok (env s) (n + printer_calls (env s))%nat.

(** The ways one call of [check_and_manage] can go, seen from the scripts
    it sends and from the pause session it leaves. *)
Inductive cycle_case (s : state) : Prop :=
| CycleRaises (e : exn)
    (Hv : value (check_and_manage s) = Raise e)
    (Hev : emitted (check_and_manage s) = [])
    (Hself : self (final (check_and_manage s)) = self s)
| CycleQuiet
    (Hv : value (check_and_manage s) = Ok tt)
    (Hev : emitted (check_and_manage s) = [])
    (Hself : self (final (check_and_manage s)) = self s)
| CyclePauseFailed
    (Hidle : is_paused (self s) = false)
    (Hev : emitted (check_and_manage s) = [Script "PAUSE"])
    (Hself : self (final (check_and_manage s)) = self s)
| CyclePaused (wn : option string)
    (Hidle : is_paused (self s) = false)
    (Hev : emitted (check_and_manage s) = [Script "PAUSE"; Sleep 1; Script gcode_park])
    (Hself : self (final (check_and_manage s)) = paused_at (reading 2 s) wn (self s))
| CycleResumeFailed (evs : list event)
    (Hpaused : is_paused (self s) = true)
    (Hevs : evs = [Script gcode_heat] \/ evs = [Script gcode_heat; Sleep 2; Script "RESUME"])
    (Hev : emitted (check_and_manage s) = evs)
    (Hself : self (final (check_and_manage s)) = self s)
| CycleResumed
    (Hpaused : is_paused (self s) = true)
    (Hstart : pause_start_time (self s) <> None)
    (Hev : emitted (check_and_manage s) = [Script gcode_heat; Sleep 2; Script "RESUME"])
    (Hself : self (final (check_and_manage s)) = cleared (self s)).

(** The pause session is coherent: paused exactly when a start time is
    recorded. *)
Definition coupled (p : PrinterPowerManager) : Prop :=
  is_paused p = true <-> pause_start_time p <> None.

(** A slot record of the feed, [{type, start, end}] with integer
    minutes, and its JSON form. *)
Record slot : Type := { slot_type : string; slot_start : Z; slot_end : Z }.

Definition py_of_slot (sl : slot) : pyval :=
  PDict [("type", PStr (slot_type sl));
         ("start", PInt (slot_start sl));
         ("end", PInt (slot_end sl))].

Definition is_definite (sl : slot) : bool := String.eqb (slot_type sl) "Definite".

Definition slot_interval (sl : slot) : result interval :=
  (a <- int_truediv (slot_start sl) 60 ;;
   b <- int_truediv (slot_end sl) 60 ;;
   Ok (a, b))%res.

(** All the results in order, or the first exception. *)
Fixpoint collect {A : Type} (rs : list (result A)) : result (list A) :=
  match rs with
  | [] => Ok []
  | r :: rest => (a <- r ;; l <- collect rest ;; Ok (a :: l))%res
  end.

Definition in_day (iv : interval) : bool :=
  ((0 <=? fst iv) && (fst iv <? snd iv) && (snd iv <? 24))%float.

(** The fractional hour of minute [m] of the day, and the table of the
    1440 minutes of a day. *)
Definition hour_of_minute (m : Z) : float :=
  match int_truediv m 60 with
  | Ok x => x
  | Raise _ => nan
  end.

Definition day_hours : list float := map hour_of_minute (seqZ 0 1440).

Fixpoint increasing (l : list float) : bool :=
  match l with
  | [] => true
  | x :: rest => forallb (fun y => (x <? y)%float) rest && increasing rest
  end.

(** A slot that lies within one day, in increasing order. *)
Definition within_day (sl : slot) : Prop :=
  0 <= slot_start sl < slot_end sl /\ slot_end sl < 1440.

(** The ways one call of [fetch_outages] can go: the manager is kept as
    it was and the fetch reports failure, or a new schedule is stored and
    the fetch reports whether its log lines could be written. *)
Inductive fetch_case (s : state) : Prop :=
| FetchKept
    (Hv : value (fetch_outages s) = Ok false)
    (Hself : self (final (fetch_outages s)) = self s)
| FetchStored (today tomorrow : list interval)
    (Hv : value (fetch_outages s) =
          Ok (is_ok (log_intervals today) && is_ok (log_intervals tomorrow)))
    (Hout : outages (dtek (self (final (fetch_outages s)))) =
            {[ "today" := today; "tomorrow" := tomorrow ]}).

(** The world after one more download of the feed. *)
Definition after_download (w : world) : world :=
  {| clock := clock w; clock_reads := clock_reads w;
     feed := feed w; feed_reads := S (feed_reads w);
     printer_ok := printer_ok w; printer_calls := printer_calls w |}.

(** The hardware quotient of two small integers, to compare
    [int_truediv] with. *)
Definition machine_div (a b : Z) : float :=
  (PrimFloat.of_uint63 (Uint63.of_Z a) / PrimFloat.of_uint63 (Uint63.of_Z b))%float.

Definition same_float (x y : float) : bool := PrimFloat.Leibniz.eqb x y.

(** The test [time_paused >= WAIT_AFTER] of a poll at [now] for a pause
    started at [t0]. *)
Definition elapsed_test (t0 now : datetime) : bool :=
  match time_paused_of now (Some t0) with
  | Ok tp => (float_of_int WAIT_AFTER <=? tp)%float
  | Raise _ => false
  end.

(** ** Scenario fixtures *)

(** A world whose clock stands at [t], whose printer answers [ok] to
    every script and whose outage feed is unreachable. *)
Definition steady_world (t : datetime) (ok : bool) : world :=
  {| clock := fun _ => t; clock_reads := 0;
     feed := fun _ => Raise RequestException; feed_reads := 0;
     printer_ok := fun _ => ok; printer_calls := 0 |}.

(** A manager whose schedule for today is the single window 16:00-19:00. *)
Definition window_16_19 : PrinterPowerManager :=
  set_outages {[ "today" := [(16, 19)%float] ]} init.

(** Two windows today, 08:00-12:00 and 16:00-19:00. *)
Definition two_windows : PrinterPowerManager :=
  set_outages {[ "today" := [(8, 12)%float; (16, 19)%float] ]} init.

(** Manager [p] polled on day 0 at [h:m:sec], the printer answering. *)
Definition poll_at (p : PrinterPowerManager) (h m sec : Z) : state :=
  {| self := p; env := steady_world (at_time 0 h m sec) true |}.

(** The same manager, paused at 15:55:00. *)
Definition paused_1555 : PrinterPowerManager :=
  paused_at (at_time 0 15 55 0) (Some "16:00-19:00") window_16_19.


(** Slots of the feed: one written backwards, one ending at midnight,
    and a regular evening. *)
Definition backwards_slot : slot :=
  {| slot_type := "Definite"; slot_start := 600; slot_end := 300 |}.

Definition midnight_slot : slot :=
  {| slot_type := "Definite"; slot_start := 1380; slot_end := 1440 |}.

Definition evening_slots : list slot :=
  [ {| slot_type := "Definite"; slot_start := 960; slot_end := 1140 |};
    {| slot_type := "NotPlanned"; slot_start := 0; slot_end := 960 |} ].

(** The decoded body [{"1.1": {"today": {"slots": [{"type": "Definite",
    "start": 1e999, "end": 60}]}}}]: the decoder reads [1e999] as the
    float infinity. *)
Definition overflow_feed : pyval :=
  PDict [("1.1", PDict [("today", PDict [("slots", PList [
    PDict [("type", PStr "Definite"); ("start", PFloat infinity); ("end", PInt 60)]])])])].

(** The manager with the 16:00-19:00 schedule, refreshing from that body
    at midnight. *)
Definition overflow_state : state :=
  {| self := window_16_19;
     env := {| clock := fun _ => at_time 1 0 0 0; clock_reads := 0;
               feed := fun _ => Ok overflow_feed; feed_reads := 0;
               printer_ok := fun _ => true; printer_calls := 0 |} |}.

(** * The daemon, the entry points and their vocabulary *)

(** [now + timedelta(days=1)] and [t.replace(hour=0, minute=0, second=0,
    microsecond=0)]. *)
Definition day_micros : Z := 86400000000.

Definition plus_one_day (t : datetime) : datetime := Datetime (micros t + day_micros).

Definition at_midnight (t : datetime) : datetime :=
  Datetime (micros t / day_micros * day_micros).

Definition _get_next_midnight : M datetime :=
  (now <- datetime_now ;;
   let tomorrow := plus_one_day now in
   ret (at_midnight tomorrow))%prog.

(** One pass of the [while True] loop of [run_daemon].  [next_update] is a
    local variable of the method: the pass returns the value it holds when
    the pass ends, which is the new one when the [try] block is left by an
    exception after the assignment and the old one before it. *)
Definition daemon_pass (next_update : datetime) : M datetime :=
  try_except
    (current_time <- datetime_now ;;
     next_update' <- (if micros next_update <=? micros current_time
                      then update_outages ;;; _get_next_midnight
                      else ret next_update) ;;
     try_except
       (check_and_manage ;;; sleep CHECK_INTERVAL ;;; ret next_update')
       (fun _ => sleep CHECK_INTERVAL ;;; ret next_update'))%prog
    (fun _ => sleep CHECK_INTERVAL ;;; ret next_update)%prog.

(** The first [passes] passes of the loop. *)
Fixpoint daemon_loop (passes : nat) (next_update : datetime) : M unit :=
  match passes with
  | O => ret tt
  | S n => (next_update' <- daemon_pass next_update ;; daemon_loop n next_update')%prog
  end.

Definition run_daemon (passes : nat) : M unit :=
  (update_outages ;;;
   next_update <- _get_next_midnight ;;
   daemon_loop passes next_update)%prog.

(** [for i in range(60, 0, -1): time.sleep(1)]. *)
Fixpoint countdown (n : nat) : M unit :=
  match n with
  | O => ret tt
  | S k => (sleep 1 ;;; countdown k)%prog
  end.

Definition test_pause_resume : M unit :=
  (paused <- pause_print ;;
   if paused then
     sleep 1 ;;;
     _ <- set_heaters_off ;;
     countdown 60 ;;;
     _ <- resume_print ;;
     ret tt
   else ret tt)%prog.

(** [manager = PrinterPowerManager()]. *)
Definition new_manager : M unit := update_self (fun _ => init).

(** [main], on [sys.argv]; the daemon is followed for [passes] passes. *)
Definition main (argv : list string) (passes : nat) : M unit :=
  match argv with
  | _ :: arg :: _ =>
    if String.eqb arg "once" then (new_manager ;;; run_once)%prog
    else if String.eqb arg "test_pause" then (new_manager ;;; test_pause_resume)%prog
    else ret tt
  | _ => (new_manager ;;; run_daemon passes)%prog
  end.

(** What a fetch stores. *)
Definition refreshed (today tomorrow : list interval) (t : datetime)
    (p : PrinterPowerManager) : PrinterPowerManager :=
  set_last_update (Some t)
    (set_outages {[ "today" := today; "tomorrow" := tomorrow ]} p).

Inductive fetch_outcome (s : state) : Prop :=
| FetchFailed
    (Hrun : fetch_outages s =
            {| value := Ok false;
               final := {| self := self s; env := after_download (env s) |};
               emitted := [] |})
| FetchRefreshed (today tomorrow : list interval)
    (Hrun : fetch_outages s =
            {| value := Ok (is_ok (log_intervals today) && is_ok (log_intervals tomorrow));
               final := {| self := refreshed today tomorrow (reading 0 s) (self s);
                           env := after_reads 1 (after_download (env s)) |};
               emitted := [] |}).

(** The world after [k] more clock readings and [j] more script
    requests. *)
Definition later (k j : nat) (w : world) : world :=
  {| clock := clock w; clock_reads := (k + clock_reads w)%nat;
     feed := feed w; feed_reads := feed_reads w;
     printer_ok := printer_ok w; printer_calls := (j + printer_calls w)%nat |}.

(** The state in which the cycle of a pass runs. *)
Definition pass_state (next_update : datetime) (s : state) : state :=
  let s1 := {| self := self s; env := after_reads 1 (env s) |} in
  if micros next_update <=? micros (reading 0 s) then
    let sf := final (fetch_outages s1) in
    {| self := self sf; env := after_reads 1 (env sf) |}
  else s1.

(** The number of sleeps of [d] seconds among the events. *)
Definition sleeps (d : Z) (evs : list event) : nat :=
  length (List.filter (fun e => match e with
                                | Sleep n => n =? d
                                | Script _ => false
                                end) evs).

(** The pause session of a manager. *)
Definition session (p : PrinterPowerManager) : bool * option datetime * option string :=
  (is_paused p, pause_start_time p, current_outage p).

(** A paused manager whose schedule for today holds an infinite start. *)
Definition stuck_manager : PrinterPowerManager :=
  set_outages {[ "today" := [(infinity, 1%float)]; "tomorrow" := [] ]} paused_1555.


(** A manager whose schedule has one window, tomorrow from 00:00 to 04:00. *)
Definition midnight_window : PrinterPowerManager :=
  set_outages {[ "today" := []; "tomorrow" := [(0, 4)%float] ]} init.





(** The feed entry of a group, [{"today": {"slots": [...]}, "tomorrow":
    {"slots": [...]}}], for slot records with integer minutes. *)
Definition day_entry (ss : list slot) : pyval :=
  PDict [("slots", PList (map py_of_slot ss))].

Definition group_entry (today tomorrow : list slot) : pyval :=
  PDict [("today", day_entry today); ("tomorrow", day_entry tomorrow)].

(** The hour intervals of the "Definite" slots of a list. *)
Definition minute_intervals (ss : list slot) : list interval :=
  map (fun sl => (hour_of_minute (slot_start sl), hour_of_minute (slot_end sl)))
      (List.filter is_definite ss).

(** Both minutes of the slot lie between 0 and 1440. *)
Definition in_minutes (sl : slot) : Prop :=
  0 <= slot_start sl <= 1440 /\ 0 <= slot_end sl <= 1440.

(** A feed that lists the evening slots for group 1.1 today and nothing
    tomorrow, and an idle manager about to download it at midnight. *)
Definition evening_feed : pyval :=
  PDict [("1.1", group_entry evening_slots [])].

Definition refresh_state : state :=
  {| self := init;
     env := {| clock := fun _ => at_time 1 0 0 0; clock_reads := 0;
               feed := fun _ => Ok evening_feed; feed_reads := 0;
               printer_ok := fun _ => true; printer_calls := 0 |} |}.

(** The clock text of minute [m] of the day. *)
Definition label_of_minute (m : Z) : string :=
  format_02d (m / 60) ++ ":" ++ format_02d (m mod 60).

(** The commands of a trace alternate: no [PAUSE] is sent to a print that
    is paused and no [RESUME] to one that is not.  The result is the
    pause state after the trace, [None] when the trace breaks the
    alternation. *)
Fixpoint alternates (paused : bool) (evs : list event) : option bool :=
  match evs with
  | [] => Some paused
  | Script script :: rest =>
    if String.eqb script "PAUSE" then
      if paused then None else alternates true rest
    else if String.eqb script "RESUME" then
      if paused then alternates false rest else None
    else alternates paused rest
  | Sleep _ :: rest => alternates paused rest
  end.

(** The printer accepts every script. *)
Definition responsive (w : world) : Prop := forall n, printer_ok w n = true.

(** * Properties *)

(** ** Float comparisons *)

Lemma SFcompare_antisym (x y : spec_float) :
  SFcompare y x = option_map CompOpp (SFcompare x y).
Proof.
  destruct x as [sx|sx| |sx mx ex], y as [sy|sy| |sy my ey]; simpl;
    try reflexivity;
    try (destruct sx; reflexivity);
    try (destruct sy; reflexivity);
    try (destruct sx, sy; reflexivity).
  assert (Hm : Pos.compare_cont Eq my mx = CompOpp (Pos.compare_cont Eq mx my))
    by (rewrite (Pos.compare_cont_antisym mx my Eq); reflexivity).
  destruct sx, sy; simpl; try reflexivity;
    rewrite (Z.compare_antisym ex ey), Hm;
    destruct (ex ?= ey)%Z; simpl; try reflexivity;
    destruct (Pos.compare_cont Eq mx my); reflexivity.
Qed.

Lemma leb_not_ltb (a b : float) : (a <=? b)%float = true -> (b <? a)%float = false.
Proof.
  rewrite leb_spec, ltb_spec. unfold SFleb, SFltb.
  rewrite (SFcompare_antisym (Prim2SF a) (Prim2SF b)).
  destruct (SFcompare (Prim2SF a) (Prim2SF b)) as [[ | | ]|]; simpl; congruence.
Qed.

(** ** The window evaluator *)

Lemma wait_before_hours_eq : int_truediv WAIT_BEFORE 60 = Ok wait_before_hours.
Proof. vm_compute. reflexivity. Qed.

Lemma pause_point_of_ok (start : float) : pause_point_of start = Ok (pause_point start).
Proof. unfold pause_point_of. rewrite wait_before_hours_eq. reflexivity. Qed.

Lemma danger_scan_cons (ch start end_ : float) (rest : list interval) (name : string) :
  window_name_of start end_ = Ok name ->
  danger_scan ch ((start, end_) :: rest) =
  if (ch <? pause_point start)%float then
    if (minutes_between ch (pause_point start) <=? 1)%float
    then Ok (true, Some name, Some (minutes_between ch (pause_point start)))
    else Ok (false, None, None)
  else if (ch <? end_)%float then Ok (true, Some name, Some (minutes_between ch end_))
  else danger_scan ch rest.
Proof.
  intros Hname. cbn [danger_scan].
  rewrite pause_point_of_ok, Hname. reflexivity.
Qed.

Lemma danger_scan_past (ch : float) (past rest : list interval) :
  forallb labelled past = true ->
  forallb (already_past ch) past = true ->
  danger_scan ch (past ++ rest) = danger_scan ch rest.
Proof.
  induction past as [|[start end_] past IH]; intros Hlab Hpast; [reflexivity|].
  cbn [forallb] in Hlab, Hpast.
  apply andb_prop in Hlab as [Hl Hlab], Hpast as [Hp Hpast].
  unfold labelled in Hl. cbn [fst snd] in Hl.
  destruct (window_name_of start end_) as [name|] eqn:Hname; [|discriminate].
  unfold already_past in Hp. cbn [fst snd] in Hp.
  apply andb_prop in Hp as [Hpp Hend].
  rewrite <- app_comm_cons, (danger_scan_cons _ _ _ _ _ Hname).
  rewrite (leb_not_ltb _ _ Hpp), (leb_not_ltb _ _ Hend).
  auto.
Qed.

Lemma minute_range (t : datetime) : 0 <= minute t < 60.
Proof. unfold minute. apply Z.mod_pos_bound. lia. Qed.


Lemma forallb_seqZ (P : Z -> bool) (a n : Z) :
  forallb P (seqZ a n) = true -> forall z, a <= z < a + n -> P z = true.
Proof.
  intros H z Hz. rewrite forallb_forall in H. apply H.
  apply list_elem_of_In, elem_of_seqZ. lia.
Qed.

Lemma minute_fraction_ok (m : Z) : 0 <= m < 60 -> is_ok (int_truediv m 60) = true.
Proof.
  intros Hm. apply (forallb_seqZ (fun m => is_ok (int_truediv m 60)) 0 60); [|lia].
  vm_compute. reflexivity.
Qed.

Lemma current_hour_total (now : datetime) : exists ch, current_hour_of now = Ok ch.
Proof.
  unfold current_hour_of.
  pose proof (minute_fraction_ok (minute now) (minute_range now)) as H.
  destruct (int_truediv (minute now) 60) as [q|]; [|discriminate].
  eexists. reflexivity.
Qed.

Lemma get_next_danger_window_run (s : state) (ch : float) :
  current_hour_of (reading 0 s) = Ok ch ->
  get_next_danger_window s =
  {| value := danger_scan ch (schedule_for s);
     final := {| self := self s; env := after_reads 2 (env s) |};
     emitted := [] |}.
Proof.
  intros Hch. destruct s as [me w].
  unfold get_next_danger_window, get_current_period, bind, datetime_now, lift, get_self,
    schedule_for, period_at, reading, after_reads in *.
  cbn in *. rewrite Hch. cbn.
  destruct (hour _ =? 23); reflexivity.
Qed.

Lemma get_next_danger_window_quiet (s : state) :
  emitted (get_next_danger_window s) = [] /\
  self (final (get_next_danger_window s)) = self s.
Proof.
  destruct (current_hour_total (reading 0 s)) as [ch Hch].
  rewrite (get_next_danger_window_run s ch Hch). auto.
Qed.

Lemma evaluator_value (s : state) :
  exists ch, current_hour_of (reading 0 s) = Ok ch /\
             value (get_next_danger_window s) = danger_scan ch (schedule_for s).
Proof.
  destruct (current_hour_total (reading 0 s)) as [ch Hch].
  exists ch. split; [exact Hch|].
  rewrite (get_next_danger_window_run s ch Hch). reflexivity.
Qed.

(** The evaluator returns a signal whenever the labels of the schedule
    can be written. *)
Lemma danger_scan_total (ch : float) (l : list interval) :
  forallb labelled l = true -> is_ok (danger_scan ch l) = true.
Proof.
  induction l as [|[start end_] l IH]; intros Hl; [reflexivity|].
  cbn [forallb] in Hl. apply andb_prop in Hl as [Hname Hl].
  unfold labelled in Hname. cbn [fst snd] in Hname.
  destruct (window_name_of start end_) as [name|] eqn:Hn; [|discriminate].
  pose proof (danger_scan_cons ch start end_ l name Hn) as Hc.
  unfold interval in *. rewrite Hc. clear Hc.
  destruct (ch <? pause_point start)%float.
  - destruct (minutes_between ch (pause_point start) <=? 1)%float; reflexivity.
  - destruct (ch <? end_)%float; [reflexivity|exact (IH Hl)].
Qed.

Lemma evaluator_total (s : state) :
  forallb labelled (schedule_for s) = true ->
  is_ok (value (get_next_danger_window s)) = true.
Proof.
  intros Hl. destruct (evaluator_value s) as (ch & _ & ->).
  apply danger_scan_total, Hl.
Qed.

(** ** The claims on the window evaluator *)

(** C2.  When the current hour is strictly before the pause point of the
    first pending interval (every earlier interval of the period's list
    being already past), the evaluator answers [must_act = True], with
    this window and the minute count, exactly when
    [(pause_point - current_hour) * 60 <= 1.0], and [(False, None, None)]
    otherwise; the intervals after the pending one are not examined (the
    answer is the same for every [rest]).  The window labels of the
    intervals visited are assumed to be writable, as they are for finite
    bounds. *)
Theorem imminent_threshold (s : state) (ch start end_ : float)
    (past rest : list interval) (name : string) :
  current_hour_of (reading 0 s) = Ok ch ->
  schedule_for s = (past ++ (start, end_) :: rest)%list ->
  forallb labelled past = true ->
  forallb (already_past ch) past = true ->
  window_name_of start end_ = Ok name ->
  (ch <? pause_point start)%float = true ->
  value (get_next_danger_window s) =
  Ok (if (minutes_between ch (pause_point start) <=? 1)%float
      then (true, Some name, Some (minutes_between ch (pause_point start)))
      else (false, None, None)).
Proof.
  intros Hch Hsched Hlab Hpast Hname Hbefore.
  rewrite (get_next_danger_window_run s ch Hch). cbn [value].
  rewrite Hsched, (danger_scan_past ch past _ Hlab Hpast).
  rewrite (danger_scan_cons ch start end_ rest name Hname), Hbefore.
  destruct (minutes_between ch (pause_point start) <=? 1)%float; reflexivity.
Qed.

Lemma imminent_threshold_witness :
  value (get_next_danger_window (poll_at two_windows 15 54 30)) =
    Ok (true, Some "16:00-19:00", Some 0x1.ffffffffffep-1%float) /\
  value (get_next_danger_window (poll_at two_windows 15 53 0)) = Ok (false, None, None).
Proof.
  split.
  - refine (eq_trans
      (imminent_threshold (poll_at two_windows 15 54 30) 0x1.fcccccccccccdp+3%float
         16%float 19%float [(8, 12)%float] [] "16:00-19:00" _ _ _ _ _ _) _);
      vm_compute; reflexivity.
  - refine (eq_trans
      (imminent_threshold (poll_at two_windows 15 53 0) 0x1.fc44444444444p+3%float
         16%float 19%float [(8, 12)%float] [] "16:00-19:00" _ _ _ _ _ _) _);
      vm_compute; reflexivity.
Defined.

(** C3.  When [pause_point <= current_hour < end] for an interval of the
    period's list and every earlier interval is already past, the
    evaluator answers [must_act = True] with
    [minutes = (end - current_hour) * 60].  The window labels of the
    intervals visited are assumed to be writable. *)
Theorem inside_window (s : state) (ch start end_ : float)
    (past rest : list interval) (name : string) :
  current_hour_of (reading 0 s) = Ok ch ->
  schedule_for s = (past ++ (start, end_) :: rest)%list ->
  forallb labelled past = true ->
  forallb (already_past ch) past = true ->
  window_name_of start end_ = Ok name ->
  (pause_point start <=? ch)%float = true ->
  (ch <? end_)%float = true ->
  value (get_next_danger_window s) = Ok (true, Some name, Some (minutes_between ch end_)).
Proof.
  intros Hch Hsched Hlab Hpast Hname Hreached Hinside.
  rewrite (get_next_danger_window_run s ch Hch). cbn [value].
  rewrite Hsched, (danger_scan_past ch past _ Hlab Hpast).
  rewrite (danger_scan_cons ch start end_ rest name Hname).
  rewrite (leb_not_ltb _ _ Hreached), Hinside. reflexivity.
Qed.

Lemma inside_window_witness :
  value (get_next_danger_window (poll_at two_windows 17 30 0)) =
    Ok (true, Some "16:00-19:00", Some 90%float).
Proof.
  refine (eq_trans
      (inside_window (poll_at two_windows 17 30 0) 17.5%float
         16%float 19%float [(8, 12)%float] [] "16:00-19:00" _ _ _ _ _ _ _) _);
      vm_compute; reflexivity.
Defined.

(** C1 (amended).  With [WAIT_BEFORE = 5] and the single window
    16:00-19:00 in the current period: at 15:54, whatever the seconds,
    the current hour is 15.9 and the evaluator answers [must_act = True]
    with the window and 0.99999999999994316 minutes (one minute to the
    15:55 pause point, up to rounding); at 15:50 it answers
    [(False, None, None)], the minutes to the pause point being
    4.9999999999999289 (5.0 up to rounding) and not returned. *)
Theorem wait_before_scenario (s : state) :
  schedule_for s = [(16, 19)%float] ->
  hour (reading 0 s) = 15 ->
  (minute (reading 0 s) = 54 ->
   value (get_next_danger_window s) =
     Ok (true, Some "16:00-19:00", Some 0x1.ffffffffffep-1%float)) /\
  (minute (reading 0 s) = 50 ->
   value (get_next_danger_window s) = Ok (false, None, None) /\
   current_hour_of (reading 0 s) = Ok 0x1.faaaaaaaaaaabp+3%float /\
   minutes_between 0x1.faaaaaaaaaaabp+3%float (pause_point 16) = 0x1.3ffffffffffbp+2%float).
Proof.
  intros Hsched Hh. split; intros Hm.
  - assert (Hch : current_hour_of (reading 0 s) = Ok 0x1.fcccccccccccdp+3%float)
      by (unfold current_hour_of; rewrite Hh, Hm; vm_compute; reflexivity).
    rewrite (get_next_danger_window_run s _ Hch). cbn [value]. rewrite Hsched.
    vm_compute. reflexivity.
  - assert (Hch : current_hour_of (reading 0 s) = Ok 0x1.faaaaaaaaaaabp+3%float)
      by (unfold current_hour_of; rewrite Hh, Hm; vm_compute; reflexivity).
    rewrite (get_next_danger_window_run s _ Hch). cbn [value]. rewrite Hsched.
    split; [|split]; [vm_compute; reflexivity|exact Hch|vm_compute; reflexivity].
Qed.

Lemma wait_before_scenario_witness :
  value (get_next_danger_window (poll_at window_16_19 15 54 30)) =
    Ok (true, Some "16:00-19:00", Some 0x1.ffffffffffep-1%float).
Proof.
  apply (wait_before_scenario (poll_at window_16_19 15 54 30)); vm_compute; reflexivity.
Defined.

Lemma wait_before_scenario_counterexample :
  ~ exists name : option string,
      value (get_next_danger_window (poll_at window_16_19 15 54 30)) =
        Ok (true, name, Some 0.5%float).
Proof.
  intros [name H].
  apply (f_equal (fun r : result signal =>
                    match r with
                    | Ok (_, _, Some x) => (x =? 0.5)%float
                    | _ => false
                    end)) in H.
  vm_compute in H. discriminate H.
Qed.

(** ** One evaluation cycle, case by case *)

#[local] Arguments time_paused_of : simpl never.
#[local] Arguments danger_scan : simpl never.
#[local] Arguments float_of_int : simpl never.
#[local] Arguments String.eqb : simpl nomatch.

Lemma check_and_manage_unfold (s : state) (ch : float) :
  current_hour_of (reading 0 s) = Ok ch ->
  check_and_manage s =
  bind (fun _ => {| value := danger_scan ch (schedule_for s);
                    final := {| self := self s; env := after_reads 2 (env s) |};
                    emitted := [] |})
       (fun sig =>
          let '(is_approaching, window_name, minutes_until) := sig in
   (me <- get_self ;;
   if is_approaching && negb (is_paused me) then
     paused <- pause_print ;;
     if paused then
       update_self (set_is_paused true) ;;;
       now <- datetime_now ;;
       update_self (set_pause_start_time (Some now)) ;;;
       update_self (set_current_outage window_name) ;;;
       sleep 1 ;;;
       _ <- set_heaters_off ;;
       ret tt
     else ret tt
   else if is_paused me then
     now <- datetime_now ;;
     time_paused <- lift (time_paused_of now (pause_start_time me)) ;;
     if (float_of_int WAIT_AFTER <=? time_paused)%float then
       resumed <- resume_print ;;
       if resumed then
         update_self (set_is_paused false) ;;;
         update_self (set_pause_start_time None) ;;;
         update_self (set_current_outage None)
       else ret tt
     else ret tt
   else ret tt)%prog) s.
Proof.
  intros Hch. unfold check_and_manage, bind at 1.
  rewrite (get_next_danger_window_run s ch Hch). reflexivity.
Qed.

Ltac step :=
  cbn [bind ret raise lift get_self update_self datetime_now sleep _call_script
       pause_print resume_print set_heaters_off value final emitted self env
       andb negb orb app set_is_paused set_pause_start_time set_current_outage
       is_paused pause_start_time current_outage dtek
       clock clock_reads feed feed_reads printer_ok printer_calls after_reads].


Section Cycle.
Variables (s : state) (ch : float).
Hypothesis Hch : current_hour_of (reading 0 s) = Ok ch.

Lemma cycle_evaluator_raises (e : exn) :
  danger_scan ch (schedule_for s) = Raise e ->
  value (check_and_manage s) = Raise e /\
  emitted (check_and_manage s) = [] /\
  self (final (check_and_manage s)) = self s.
Proof.
  intros Hscan. rewrite (check_and_manage_unfold s ch Hch).
  unfold bind at 1. cbn [value final emitted]. rewrite Hscan. auto.
Qed.

Lemma cycle_idle_quiet (wn : option string) (mu : option float) :
  is_paused (self s) = false ->
  danger_scan ch (schedule_for s) = Ok (false, wn, mu) ->
  value (check_and_manage s) = Ok tt /\
  emitted (check_and_manage s) = [] /\
  self (final (check_and_manage s)) = self s.
Proof.
  intros Hp Hscan. rewrite (check_and_manage_unfold s ch Hch).
  unfold bind at 1. cbn [value final emitted]. rewrite Hscan.
  step. rewrite Hp. step. auto.
Qed.

Lemma cycle_idle_pause (wn : option string) (mu : option float) :
  is_paused (self s) = false ->
  danger_scan ch (schedule_for s) = Ok (true, wn, mu) ->
  value (check_and_manage s) = Ok tt /\
  emitted (check_and_manage s) =
    (if printer_answer 0 s then [Script "PAUSE"; Sleep 1; Script gcode_park]
     else [Script "PAUSE"]) /\
  self (final (check_and_manage s)) =
    (if printer_answer 0 s then paused_at (reading 2 s) wn (self s) else self s).
Proof.
  intros Hp Hscan. rewrite (check_and_manage_unfold s ch Hch).
  unfold bind at 1. cbn [value final emitted]. rewrite Hscan.
  unfold printer_answer, reading, paused_at. destruct s as [me w]. step. cbn [self] in Hp. rewrite Hp. step.
  cbn [Nat.add].
  destruct (printer_ok w (printer_calls w)); step; auto.
Qed.

Lemma cycle_paused_error (sig : signal) (e : exn) :
  is_paused (self s) = true ->
  danger_scan ch (schedule_for s) = Ok sig ->
  time_paused_of (reading 2 s) (pause_start_time (self s)) = Raise e ->
  value (check_and_manage s) = Raise e /\
  emitted (check_and_manage s) = [] /\
  self (final (check_and_manage s)) = self s.
Proof.
  intros Hp Hscan Htp. rewrite (check_and_manage_unfold s ch Hch).
  unfold bind at 1. cbn [value final emitted]. rewrite Hscan.
  destruct sig as [[appr wn] mu]. unfold reading in Htp.
  destruct s as [me w]. step. cbn [self env] in Hp, Htp. rewrite Hp.
  replace (appr && negb true) with false by (destruct appr; reflexivity).
  step. rewrite Htp. auto.
Qed.

Lemma cycle_paused (sig : signal) (tp : float) :
  is_paused (self s) = true ->
  danger_scan ch (schedule_for s) = Ok sig ->
  time_paused_of (reading 2 s) (pause_start_time (self s)) = Ok tp ->
  value (check_and_manage s) = Ok tt /\
  emitted (check_and_manage s) =
    (if (float_of_int WAIT_AFTER <=? tp)%float then
       if printer_answer 0 s then [Script gcode_heat; Sleep 2; Script "RESUME"]
       else [Script gcode_heat]
     else []) /\
  self (final (check_and_manage s)) =
    (if (float_of_int WAIT_AFTER <=? tp)%float && printer_answer 0 s && printer_answer 1 s
     then cleared (self s) else self s).
Proof.
  intros Hp Hscan Htp. rewrite (check_and_manage_unfold s ch Hch).
  unfold bind at 1. cbn [value final emitted]. rewrite Hscan.
  destruct sig as [[appr wn] mu]. unfold reading in Htp. unfold printer_answer, cleared.
  destruct s as [me w]. step. cbn [self env] in Hp, Htp. rewrite Hp.
  replace (appr && negb true) with false by (destruct appr; reflexivity).
  step. rewrite Htp. step. cbn [Nat.add].
  destruct (float_of_int WAIT_AFTER <=? tp)%float; step; [|auto].
  unfold resume_print, _call_script, sleep, update_self, bind, ret. step.
  destruct (printer_ok w (printer_calls w)); step; [|auto].
  destruct (printer_ok w (S (printer_calls w))); step; auto.
Qed.

End Cycle.

Lemma cycle_cases (s : state) : cycle_case s.
Proof.
  destruct (evaluator_value s) as (ch & Hch & _).
  destruct (danger_scan ch (schedule_for s)) as [[[appr wn] mu]|e] eqn:Hscan.
  2:{ destruct (cycle_evaluator_raises s ch Hch e Hscan) as (? & ? & ?).
      eapply CycleRaises; eauto. }
  destruct (is_paused (self s)) eqn:Hp.
  - destruct (time_paused_of (reading 2 s) (pause_start_time (self s))) as [tp|e] eqn:Htp.
    + destruct (cycle_paused s ch Hch _ tp Hp Hscan Htp) as (Hv & Hev & Hself).
      destruct (float_of_int WAIT_AFTER <=? tp)%float; cbn [andb] in Hself.
      * destruct (printer_answer 0 s); cbn [andb] in Hself.
        -- destruct (printer_answer 1 s).
           ++ apply CycleResumed; auto.
              destruct (pause_start_time (self s)); [discriminate|discriminate].
           ++ exact (CycleResumeFailed s _ Hp (or_intror eq_refl) Hev Hself).
        -- exact (CycleResumeFailed s _ Hp (or_introl eq_refl) Hev Hself).
      * apply CycleQuiet; auto.
    + destruct (cycle_paused_error s ch Hch _ e Hp Hscan Htp) as (? & ? & ?).
      eapply CycleRaises; eauto.
  - destruct appr.
    + destruct (cycle_idle_pause s ch Hch wn mu Hp Hscan) as (Hv & Hev & Hself).
      destruct (printer_answer 0 s).
      * eapply CyclePaused; eauto.
      * apply CyclePauseFailed; auto.
    + destruct (cycle_idle_quiet s ch Hch wn mu Hp Hscan) as (? & ? & ?).
      apply CycleQuiet; auto.
Qed.

(** ** The pause/resume machine *)

(** C4.  In every evaluation cycle, whatever the evaluator signals and
    whatever the printer answers: when the manager is already paused no
    PAUSE script is sent, when it is not paused no resume script (heater
    script or RESUME) is sent, and no cycle sends both a pause and a
    resume command. *)
Theorem no_conflicting_command (s : state) :
  (if is_paused (self s)
   then pause_issued (emitted (check_and_manage s))
   else resume_issued (emitted (check_and_manage s))) = false /\
  pause_issued (emitted (check_and_manage s)) &&
  resume_issued (emitted (check_and_manage s)) = false.
Proof.
  destruct (cycle_cases s) as [e Hv Hev Hself|Hv Hev Hself|Hidle Hev Hself|wn Hidle Hev Hself
                              |evs Hpaused Hevs Hev Hself|Hpaused Hstart Hev Hself];
    rewrite Hev; try rewrite Hidle; try rewrite Hpaused;
    try (destruct Hevs; subst evs);
    try (destruct (is_paused (self s)));
    split; reflexivity.
Qed.

(** C10.  The coupling [is_paused = True] exactly when
    [pause_start_time] is not [None] is preserved by every evaluation
    cycle, for every evaluator signal, every printer answer and also
    when the cycle ends by an exception. *)
Theorem coupling_preserved (s : state) :
  coupled (self s) -> coupled (self (final (check_and_manage s))).
Proof.
  intros Hc.
  destruct (cycle_cases s) as [e Hv Hev Hself|Hv Hev Hself|Hidle Hev Hself|wn Hidle Hev Hself
                              |evs Hpaused Hevs Hev Hself|Hpaused Hstart Hev Hself];
    rewrite Hself; try exact Hc.
  - unfold coupled, paused_at. cbn. split; [discriminate|reflexivity].
  - unfold coupled, cleared. cbn. split; [discriminate|congruence].
Qed.

Lemma coupling_preserved_witness :
  coupled (self (final (check_and_manage (poll_at window_16_19 15 54 30)))).
Proof.
  apply (coupling_preserved (poll_at window_16_19 15 54 30)).
  split; [discriminate|intros H; contradiction H; reflexivity].
Defined.







(** ** Slot parsing *)

Lemma increasing_lookup (l : list float) :
  increasing l = true ->
  forall (i j : nat) (x y : float),
    (i < j)%nat -> l !! i = Some x -> l !! j = Some y -> (x <? y)%float = true.
Proof.
  induction l as [|a l IH]; intros Hl i j x y Hij Hi Hj; [discriminate|].
  cbn [increasing] in Hl. apply andb_prop in Hl as [Ha Hl].
  destruct j as [|j]; [lia|]. cbn in Hj.
  destruct i as [|i].
  - cbn in Hi. injection Hi as <-.
    rewrite forallb_forall in Ha. apply Ha.
    apply list_elem_of_In. eapply list_elem_of_lookup_2. exact Hj.
  - cbn in Hi. apply (IH Hl i j); [lia|assumption|assumption].
Qed.

Lemma lookup_map_seqZ {A : Type} (f : Z -> A) (a n m : Z) :
  a <= m < a + n -> map f (seqZ a n) !! Z.to_nat (m - a) = Some (f m).
Proof.
  intros Hm.
  change (map f (seqZ a n)) with (f <$> seqZ a n).
  rewrite list_lookup_fmap.
  assert (H : seqZ a n !! Z.to_nat (m - a) = Some m) by (apply lookup_seqZ; lia).
  rewrite H. reflexivity.
Qed.

Lemma day_hours_lookup (m : Z) :
  0 <= m < 1440 -> day_hours !! Z.to_nat m = Some (hour_of_minute m).
Proof.
  intros Hm.
  pose proof (lookup_map_seqZ hour_of_minute 0 1440 m ltac:(lia)) as H.
  rewrite Z.sub_0_r in H. exact H.
Qed.

Lemma day_hours_parts :
  forallb (fun m => is_ok (int_truediv m 60) && is_ok (hhmm (hour_of_minute m))) (seqZ 0 1441) = true /\
  forallb (fun x => (0 <=? x)%float && (x <? 24)%float) day_hours = true /\
  increasing day_hours = true.
Proof. split; [|split]; vm_compute; reflexivity. Qed.

Lemma minute_hours (m : Z) :
  0 <= m <= 1440 ->
  int_truediv m 60 = Ok (hour_of_minute m) /\ is_ok (hhmm (hour_of_minute m)) = true.
Proof.
  intros Hm. destruct day_hours_parts as (H & _ & _).
  pose proof (forallb_seqZ _ 0 1441 H m ltac:(lia)) as Hok. cbv beta in Hok.
  apply andb_prop in Hok as [Hdiv Hlab]. split; [|exact Hlab].
  unfold hour_of_minute. destruct (int_truediv m 60); [reflexivity|discriminate].
Qed.

Lemma minutes_in_day (a b : Z) :
  0 <= a < b -> b < 1440 -> in_day (hour_of_minute a, hour_of_minute b) = true.
Proof.
  intros Ha Hb. destruct day_hours_parts as (_ & Hrange & Hinc).
  pose proof (day_hours_lookup a ltac:(lia)) as Hla.
  pose proof (day_hours_lookup b ltac:(lia)) as Hlb.
  rewrite forallb_forall in Hrange.
  pose proof (Hrange _ (proj1 (list_elem_of_In _ _) (list_elem_of_lookup_2 _ _ _ Hla))) as Hra.
  pose proof (Hrange _ (proj1 (list_elem_of_In _ _) (list_elem_of_lookup_2 _ _ _ Hlb))) as Hrb.
  cbv beta in Hra, Hrb.
  apply andb_prop in Hra as [Ha0 _]. apply andb_prop in Hrb as [_ Hb24].
  unfold in_day. cbn [fst snd]. rewrite Ha0, Hb24.
  rewrite (increasing_lookup day_hours Hinc (Z.to_nat a) (Z.to_nat b) _ _ ltac:(lia) Hla Hlb).
  reflexivity.
Qed.

Lemma parse_slots_loop_typed (ss : list slot) (acc : list interval) :
  parse_slots_loop (map py_of_slot ss) acc =
  (l <- collect (map slot_interval (List.filter is_definite ss)) ;; Ok (acc ++ l)%list)%res.
Proof.
  revert acc. induction ss as [|sl ss IH]; intros acc.
  - cbn. rewrite app_nil_r. reflexivity.
  - cbn [map parse_slots_loop List.filter].
    change (py_get (py_of_slot sl) "type" PNone) with (Ok (PStr (slot_type sl))).
    cbn [rbind py_eq_str]. fold (is_definite sl).
    destruct (is_definite sl) eqn:Hdef.
    + change (py_get (py_of_slot sl) "start" (PInt 0)) with (Ok (PInt (slot_start sl))).
      change (py_get (py_of_slot sl) "end" (PInt 0)) with (Ok (PInt (slot_end sl))).
      cbn [rbind py_truediv map collect]. unfold slot_interval.
      destruct (int_truediv (slot_start sl) 60) as [a|e]; cbn [rbind]; [|reflexivity].
      destruct (int_truediv (slot_end sl) 60) as [b|e]; cbn [rbind]; [|reflexivity].
      rewrite IH.
      destruct (collect (map _ (List.filter is_definite ss))) as [l|e]; cbn [rbind]; [|reflexivity].
      rewrite <- app_assoc. reflexivity.
    + apply IH.
Qed.


Lemma collect_in_day (ss : list slot) :
  Forall within_day ss ->
  exists l, collect (map slot_interval ss) = Ok l /\ forallb in_day l = true.
Proof.
  induction 1 as [|sl ss [Hs He] _ (l & Hl & Hin)].
  - exists []. split; reflexivity.
  - cbn [map collect]. unfold slot_interval at 1.
    destruct (minute_hours (slot_start sl) ltac:(lia)) as [-> _].
    destruct (minute_hours (slot_end sl) ltac:(lia)) as [-> _].
    cbn [rbind]. rewrite Hl. cbn [rbind].
    eexists. split; [reflexivity|].
    cbn [forallb]. rewrite Hin, (minutes_in_day _ _ Hs He). reflexivity.
Qed.

(** Bounds parsed from the minutes of a day have writable labels. *)
Lemma collect_labelled (ss : list slot) :
  Forall (fun sl => 0 <= slot_start sl <= 1440 /\ 0 <= slot_end sl <= 1440) ss ->
  exists l, collect (map slot_interval ss) = Ok l /\ forallb labelled l = true.
Proof.
  induction 1 as [|sl ss [Hs He] _ (l & Hl & Hlab)].
  - exists []. split; reflexivity.
  - cbn [map collect]. unfold slot_interval at 1.
    destruct (minute_hours (slot_start sl) Hs) as [-> Ha].
    destruct (minute_hours (slot_end sl) He) as [-> Hb].
    cbn [rbind]. rewrite Hl. cbn [rbind].
    eexists. split; [reflexivity|].
    cbn [forallb]. rewrite Hlab. unfold labelled, window_name_of. cbn [fst snd].
    destruct (hhmm (hour_of_minute (slot_start sl))); [|discriminate].
    destruct (hhmm (hour_of_minute (slot_end sl))); [|discriminate].
    reflexivity.
Qed.

(** C8 (amended).  Slot parsing checks no bound.  When every "Definite"
    slot has integer minutes with [0 <= start < end < 1440], the parse
    succeeds and every interval produced satisfies
    [0 <= start_hour < end_hour < 24]. *)
Theorem parsed_intervals_in_day (ss : list slot) :
  Forall within_day (List.filter is_definite ss) ->
  exists l, _parse_slots (PList (map py_of_slot ss)) = Ok l /\ forallb in_day l = true.
Proof.
  intros Hss. destruct (collect_in_day _ Hss) as (l & Hl & Hin).
  exists l. split; [|exact Hin].
  unfold _parse_slots. cbn [py_iter rbind].
  rewrite parse_slots_loop_typed, Hl. reflexivity.
Qed.

Lemma parsed_intervals_in_day_witness :
  exists l, _parse_slots (PList (map py_of_slot evening_slots)) = Ok l /\
            forallb in_day l = true.
Proof.
  apply (parsed_intervals_in_day evening_slots).
  repeat constructor; cbn; lia.
Defined.

Lemma parsed_interval_bounds_counterexample :
  _parse_slots (PList [py_of_slot backwards_slot; py_of_slot midnight_slot]) =
    Ok [(10, 5)%float; (23, 24)%float] /\
  in_day (10, 5)%float = false /\ in_day (23, 24)%float = false.
Proof. vm_compute. auto. Qed.

(** ** The schedule fetch *)

Section Run.
Context {A B : Type}.
Variables (k : A -> M B) (s : state).

Lemma outcome_eta (o : outcome B) :
  {| value := value o; final := final o; emitted := emitted o |} = o.
Proof. destruct o; reflexivity. Qed.

Lemma bind_lift_ok (a : A) : bind (lift (Ok a)) k s = k a s.
Proof. unfold bind, lift. cbn [value final emitted app]. apply outcome_eta. Qed.

Lemma bind_lift_raise (e : exn) :
  bind (lift (Raise e)) k s = {| value := Raise e; final := s; emitted := [] |}.
Proof. reflexivity. Qed.

Lemma bind_ret (a : A) : bind (ret a) k s = k a s.
Proof. unfold bind, ret. cbn [value final emitted app]. apply outcome_eta. Qed.

End Run.

Lemma bind_get_self {B : Type} (k : PrinterPowerManager -> M B) (s : state) :
  bind get_self k s = k (self s) s.
Proof. unfold bind, get_self. cbn [value final emitted app]. apply outcome_eta. Qed.

Lemma bind_update_self {B : Type} (f : PrinterPowerManager -> PrinterPowerManager)
    (k : unit -> M B) (s : state) :
  bind (update_self f) k s = k tt {| self := f (self s); env := env s |}.
Proof. unfold bind, update_self. cbn [value final emitted app]. apply outcome_eta. Qed.

Lemma bind_datetime_now {B : Type} (k : datetime -> M B) (s : state) :
  bind datetime_now k s =
  k (reading 0 s) {| self := self s; env := after_reads 1 (env s) |}.
Proof. unfold bind, datetime_now. cbn [value final emitted app]. apply outcome_eta. Qed.

Lemma bind_download_feed {B : Type} (k : pyval -> M B) (s : state) :
  bind download_feed k s =
  bind (lift (feed (env s) (feed_reads (env s)))) k
       {| self := self s; env := after_download (env s) |}.
Proof.
  unfold bind, download_feed, lift. cbn [value final emitted app].
  reflexivity.
Qed.

Ltac run_step :=
  first [ rewrite bind_get_self | rewrite bind_update_self | rewrite bind_datetime_now
        | rewrite bind_ret | rewrite bind_lift_ok | rewrite bind_lift_raise
        | rewrite bind_download_feed ];
  cbv beta.

Ltac fetch_run :=
  unfold fetch_outages, try_except; cbv zeta;
  repeat first
    [ run_step
    | match goal with H : feed _ _ = _ |- _ => rewrite H end
    | match goal with H : py_contains _ _ = _ |- _ => rewrite H end
    | match goal with H : py_getitem _ _ = _ |- _ => rewrite H end
    | match goal with H : rbind (period_slots _ _) _ = _ |- _ => rewrite H end
    | match goal with H : log_intervals _ = _ |- _ => rewrite H end
    | progress cbn [negb self] ];
  cbn [value final emitted self env set_outages set_last_update outages dtek ret
       is_ok andb].

Lemma fetch_cases (s : state) : fetch_case s.
Proof.
  destruct (feed (env s) (feed_reads (env s))) as [data|e] eqn:Hfeed.
  2:{ apply FetchKept; fetch_run; reflexivity. }
  destruct (py_contains (group (dtek (self s))) data) as [found|e] eqn:Hin.
  2:{ apply FetchKept; fetch_run; reflexivity. }
  destruct found.
  2:{ apply FetchKept; fetch_run; reflexivity. }
  destruct (py_getitem data (group (dtek (self s)))) as [group_data|e] eqn:Hitem.
  2:{ apply FetchKept; fetch_run; reflexivity. }
  destruct (sl <- period_slots group_data "today" ;; _parse_slots sl)%res
    as [today|e] eqn:Htoday.
  2:{ apply FetchKept; fetch_run; reflexivity. }
  destruct (sl <- period_slots group_data "tomorrow" ;; _parse_slots sl)%res
    as [tomorrow|e] eqn:Htomorrow.
  2:{ apply FetchKept; fetch_run; reflexivity. }
  apply (FetchStored s today tomorrow);
    destruct (log_intervals today) eqn:Hlog1;
    destruct (log_intervals tomorrow) eqn:Hlog2;
    fetch_run; reflexivity.
Qed.

Lemma fetch_never_raises (s : state) : exists b, value (fetch_outages s) = Ok b.
Proof.
  destruct (fetch_cases s) as [Hv _|today tomorrow Hv _]; rewrite Hv; eauto.
Qed.

Lemma fetch_unavailable_keeps_schedule (s : state) (e : exn) :
  feed (env s) (feed_reads (env s)) = Raise e ->
  value (fetch_outages s) = Ok false /\ self (final (fetch_outages s)) = self s.
Proof. intros Hfeed. split; fetch_run; reflexivity. Qed.

Lemma fetch_group_absent_keeps_schedule (s : state) (data : pyval) :
  feed (env s) (feed_reads (env s)) = Ok data ->
  py_contains (group (dtek (self s))) data = Ok false ->
  value (fetch_outages s) = Ok false /\ self (final (fetch_outages s)) = self s.
Proof. intros Hfeed Hin. split; fetch_run; reflexivity. Qed.

Lemma fetch_failure_cases (s : state) :
  value (fetch_outages s) = Ok false ->
  self (final (fetch_outages s)) = self s \/
  exists today tomorrow,
    outages (dtek (self (final (fetch_outages s)))) =
      {[ "today" := today; "tomorrow" := tomorrow ]} /\
    is_ok (log_intervals today) && is_ok (log_intervals tomorrow) = false.
Proof.
  intros Hfalse.
  destruct (fetch_cases s) as [_ Hself|today tomorrow Hv Hout]; [left; exact Hself|].
  right. exists today, tomorrow. split; [exact Hout|].
  rewrite Hv in Hfalse.
  destruct (is_ok (log_intervals today) && is_ok (log_intervals tomorrow)); congruence.
Qed.

(** C7.  A fetch that reports failure after the new schedule has been
    stored: the body holds a "Definite" slot whose start decodes to the
    float infinity, the slots parse, [self.outages] is replaced, and then
    the log line of the refreshed schedule raises on [int(start)].  The
    fetch returns [False] while the stored schedule is no longer the
    previous one. *)
Theorem fetch_failure_after_storing :
  value (fetch_outages overflow_state) = Ok false /\
  outages (dtek (self overflow_state)) !! "today" = Some [(16, 19)%float] /\
  outages (dtek (self (final (fetch_outages overflow_state)))) !! "today" =
    Some [(infinity, 1%float)] /\
  outages (dtek (self (final (fetch_outages overflow_state)))) <>
    outages (dtek (self overflow_state)).
Proof.
  repeat split; try (vm_compute; reflexivity).
  intros H.
  apply (f_equal (fun o : gmap string (list interval) =>
                    match o !! "today" with
                    | Some [(a, _)] => is_infinity a
                    | _ => false
                    end)) in H.
  vm_compute in H. discriminate H.
Qed.

(** ** Cross-checks of the arithmetic *)

(** For the minutes of a day, Python's integer quotient by 60 is the
    hardware quotient of the two converted operands. *)
Lemma int_truediv_minutes_machine :
  forallb (fun m => match int_truediv m 60 with
                    | Ok q => same_float q (machine_div m 60)
                    | Raise _ => false
                    end) (seqZ 0 1441) = true.
Proof. vm_compute. reflexivity. Qed.

(** On the grid of whole seconds, for half an hour after the pause, the
    elapsed test holds exactly from 600 seconds on. *)
Lemma elapsed_test_grid :
  forallb (fun n => Bool.eqb (elapsed_test (Datetime 0) (Datetime (n * 1000000))) (600 <=? n))
          (seqZ 0 1801) = true.
Proof. vm_compute. reflexivity. Qed.

Lemma elapsed_test_seconds (t0 : datetime) (n : Z) :
  0 <= n <= 1800 ->
  elapsed_test t0 (Datetime (micros t0 + n * 1000000)) = (600 <=? n).
Proof.
  intros Hn.
  pose proof (forallb_seqZ _ 0 1801 elapsed_test_grid n ltac:(lia)) as H.
  cbv beta in H. apply Bool.eqb_prop in H. rewrite <- H.
  unfold elapsed_test, time_paused_of, total_seconds_between. cbn [micros].
  replace (micros t0 + n * 1000000 - micros t0) with (n * 1000000 - 0) by lia.
  reflexivity.
Qed.

(** * Further properties *)

Lemma bind_ok {A B : Type} (m : M A) (k : A -> M B) (s : state) (a : A) :
  value (m s) = Ok a ->
  bind m k s =
  {| value := value (k a (final (m s)));
     final := final (k a (final (m s)));
     emitted := emitted (m s) ++ emitted (k a (final (m s))) |}.
Proof. intros H. unfold bind. rewrite H. reflexivity. Qed.

Lemma bind_raise {A B : Type} (m : M A) (k : A -> M B) (s : state) (e : exn) :
  value (m s) = Raise e ->
  bind m k s = {| value := Raise e; final := final (m s); emitted := emitted (m s) |}.
Proof. intros H. unfold bind. rewrite H. reflexivity. Qed.

Lemma at_midnight_next_day (t : datetime) :
  let m := at_midnight (plus_one_day t) in
  micros t < micros m <= micros t + day_micros /\
  hour m = 0 /\ minute m = 0 /\ micros m mod day_micros = 0 /\
  (forall u, micros t < micros u -> micros u mod day_micros = 0 -> micros m <= micros u).
Proof.
  cbv zeta. unfold at_midnight, plus_one_day, hour, minute, day_micros. cbn [micros].
  set (x := micros t).
  pose proof (Z.div_mod (x + 86400000000) 86400000000 ltac:(lia)) as Hdm.
  pose proof (Z.mod_pos_bound (x + 86400000000) 86400000000 ltac:(lia)) as Hb.
  set (q := (x + 86400000000) / 86400000000) in *.
  repeat split.
  - lia.
  - lia.
  - replace (q * 86400000000) with ((q * 24) * 3600000000) by lia.
    rewrite Z.div_mul by lia. apply Z.mod_mul. lia.
  - replace (q * 86400000000) with ((q * 1440) * 60000000) by lia.
    rewrite Z.div_mul by lia.
    replace (q * 1440) with ((q * 24) * 60) by lia. apply Z.mod_mul. lia.
  - apply Z.mod_mul. lia.
  - intros u Hu Hmod.
    apply Z.mod_divide in Hmod; [|lia]. destruct Hmod as [k Hk]. rewrite Hk in *.
    assert (q <= k); nia.
Qed.

Lemma fetch_outcomes (s : state) : fetch_outcome s.
Proof.
  destruct (feed (env s) (feed_reads (env s))) as [data|e] eqn:Hfeed.
  2:{ apply FetchFailed; fetch_run; reflexivity. }
  destruct (py_contains (group (dtek (self s))) data) as [found|e] eqn:Hin.
  2:{ apply FetchFailed; fetch_run; reflexivity. }
  destruct found.
  2:{ apply FetchFailed; fetch_run; reflexivity. }
  destruct (py_getitem data (group (dtek (self s)))) as [group_data|e] eqn:Hitem.
  2:{ apply FetchFailed; fetch_run; reflexivity. }
  destruct (sl <- period_slots group_data "today" ;; _parse_slots sl)%res
    as [today|e] eqn:Htoday.
  2:{ apply FetchFailed; fetch_run; reflexivity. }
  destruct (sl <- period_slots group_data "tomorrow" ;; _parse_slots sl)%res
    as [tomorrow|e] eqn:Htomorrow.
  2:{ apply FetchFailed; fetch_run; reflexivity. }
  apply (FetchRefreshed s today tomorrow);
    destruct (log_intervals today) eqn:Hlog1;
    destruct (log_intervals tomorrow) eqn:Hlog2;
    fetch_run; reflexivity.
Qed.


Lemma cycle_world (s : state) :
  exists k j, env (final (check_and_manage s)) = later k j (env s).
Proof.
  destruct (current_hour_total (reading 0 s)) as [ch Hch].
  rewrite (check_and_manage_unfold s ch Hch).
  unfold bind at 1. cbn [value final emitted].
  destruct (danger_scan ch (schedule_for s)) as [[[appr wn] mu]|e].
  2:{ exists 2%nat, 0%nat. reflexivity. }
  destruct s as [me w]. step.
  destruct (is_paused me) eqn:Hp.
  - replace (appr && negb true) with false by (destruct appr; reflexivity).
    step.
    destruct (time_paused_of _ _) as [tp|e]; step; [|exists 3%nat, 0%nat; reflexivity].
    destruct (float_of_int WAIT_AFTER <=? tp)%float; step;
      [|exists 3%nat, 0%nat; reflexivity].
    unfold resume_print, _call_script, sleep, update_self, bind, ret. step.
    destruct (printer_ok w (printer_calls w)); step;
      [|exists 3%nat, 1%nat; reflexivity].
    destruct (printer_ok w (S (printer_calls w))); step;
      exists 3%nat, 2%nat; reflexivity.
  - destruct appr; step; [|exists 2%nat, 0%nat; reflexivity].
    destruct (printer_ok w (printer_calls w)); step;
      [exists 3%nat, 2%nat; reflexivity|exists 2%nat, 1%nat; reflexivity].
Qed.

Lemma get_next_midnight_run (s : state) :
  _get_next_midnight s =
  {| value := Ok (at_midnight (plus_one_day (reading 0 s)));
     final := {| self := self s; env := after_reads 1 (env s) |};
     emitted := [] |}.
Proof. reflexivity. Qed.

(** X1.  [_get_next_midnight] reads the clock once, changes nothing else
    and returns the first day boundary strictly after the reading: it is
    later than the reading by at most one day, its hour and minute are
    zero, and no day boundary lies between the reading and it. *)
Theorem next_midnight_after_now (s : state) :
  exists m,
    _get_next_midnight s =
      {| value := Ok m;
         final := {| self := self s; env := after_reads 1 (env s) |};
         emitted := [] |} /\
    micros (reading 0 s) < micros m <= micros (reading 0 s) + day_micros /\
    hour m = 0 /\ minute m = 0 /\ micros m mod day_micros = 0 /\
    (forall u, micros (reading 0 s) < micros u -> micros u mod day_micros = 0 ->
               micros m <= micros u).
Proof.
  exists (at_midnight (plus_one_day (reading 0 s))).
  split; [apply get_next_midnight_run|].
  apply at_midnight_next_day.
Qed.

Lemma update_outages_run (s : state) :
  update_outages s =
  {| value := Ok tt; final := final (fetch_outages s); emitted := [] |}.
Proof.
  unfold update_outages, bind.
  destruct (fetch_outcomes s) as [Hrun|today tomorrow Hrun]; rewrite Hrun; reflexivity.
Qed.

Lemma guarded_run (cycle : M unit) (nu : datetime) (s : state) :
  try_except
    (cycle ;;; sleep CHECK_INTERVAL ;;; ret nu)%prog
    (fun _ => sleep CHECK_INTERVAL ;;; ret nu)%prog s =
  {| value := Ok nu;
     final := final (cycle s);
     emitted := emitted (cycle s) ++ [Sleep CHECK_INTERVAL] |}.
Proof.
  unfold try_except.
  destruct (value (cycle s)) as [[]|e] eqn:Hv.
  - rewrite (bind_ok _ _ _ _ Hv). reflexivity.
  - rewrite (bind_raise _ _ _ _ Hv). cbn [value final emitted]. reflexivity.
Qed.

Lemma pass_run (fetch : M bool) (refresh cycle : M unit) (nu : datetime) (s : state) :
  (forall s', refresh s' = {| value := Ok tt; final := final (fetch s'); emitted := [] |}) ->
  try_except
    (current_time <- datetime_now ;;
     next_update' <- (if micros nu <=? micros current_time
                      then refresh ;;; _get_next_midnight
                      else ret nu) ;;
     try_except
       (cycle ;;; sleep CHECK_INTERVAL ;;; ret next_update')
       (fun _ => sleep CHECK_INTERVAL ;;; ret next_update'))%prog
    (fun _ => sleep CHECK_INTERVAL ;;; ret nu)%prog s =
  let s1 := {| self := self s; env := after_reads 1 (env s) |} in
  let s2 := if micros nu <=? micros (reading 0 s)
            then {| self := self (final (fetch s1));
                    env := after_reads 1 (env (final (fetch s1))) |}
            else s1 in
  {| value := Ok (if micros nu <=? micros (reading 0 s)
                  then at_midnight (plus_one_day (reading 0 (final (fetch s1))))
                  else nu);
     final := final (cycle s2);
     emitted := emitted (cycle s2) ++ [Sleep CHECK_INTERVAL] |}.
Proof.
  intros Hrefresh. cbv zeta. unfold try_except at 1. cbv zeta.
  rewrite bind_datetime_now. cbv beta.
  destruct (micros nu <=? micros (reading 0 s)).
  - set (s1 := {| self := self s; env := after_reads 1 (env s) |}).
    assert (Hr : (refresh ;;; _get_next_midnight)%prog s1 =
                 {| value := Ok (at_midnight (plus_one_day (reading 0 (final (fetch s1)))));
                    final := {| self := self (final (fetch s1));
                                env := after_reads 1 (env (final (fetch s1))) |};
                    emitted := [] |}).
    { unfold bind. rewrite Hrefresh. cbn [value final emitted app].
      rewrite get_next_midnight_run. reflexivity. }
    assert (Hv := f_equal value Hr). cbn [value] in Hv.
    rewrite (bind_ok _ _ s1 _ Hv), Hr. cbn [value final emitted app].
    rewrite guarded_run. cbn [value final emitted app]. reflexivity.
  - rewrite bind_ret. rewrite guarded_run. cbn [value final emitted app]. reflexivity.
Qed.

Lemma daemon_pass_run (nu : datetime) (s : state) :
  daemon_pass nu s =
  {| value := Ok (if micros nu <=? micros (reading 0 s)
                  then at_midnight (plus_one_day
                         (reading 0 (final (fetch_outages
                            {| self := self s; env := after_reads 1 (env s) |}))))
                  else nu);
     final := final (check_and_manage (pass_state nu s));
     emitted := emitted (check_and_manage (pass_state nu s)) ++ [Sleep CHECK_INTERVAL] |}.
Proof.
  pose proof (pass_run fetch_outages update_outages check_and_manage nu s
                update_outages_run) as H.
  cbv zeta in H. exact H.
Qed.

Lemma sleeps_app (d : Z) (a b : list event) :
  sleeps d (a ++ b) = (sleeps d a + sleeps d b)%nat.
Proof. unfold sleeps. rewrite List.filter_app, length_app. reflexivity. Qed.

Lemma cycle_sleeps (s : state) : sleeps CHECK_INTERVAL (emitted (check_and_manage s)) = 0%nat.
Proof.
  destruct (cycle_cases s) as [e Hv Hev Hself|Hv Hev Hself|Hidle Hev Hself|wn Hidle Hev Hself
                              |evs Hpaused Hevs Hev Hself|Hpaused Hstart Hev Hself];
    rewrite Hev; try (destruct Hevs; subst evs); reflexivity.
Qed.

Lemma cycle_keeps_schedule (s : state) :
  dtek (self (final (check_and_manage s))) = dtek (self s).
Proof.
  destruct (cycle_cases s) as [e Hv Hev Hself|Hv Hev Hself|Hidle Hev Hself|wn Hidle Hev Hself
                              |evs Hpaused Hevs Hev Hself|Hpaused Hstart Hev Hself];
    rewrite Hself; reflexivity.
Qed.

Lemma cycle_keeps_coupling (s : state) :
  coupled (self s) -> coupled (self (final (check_and_manage s))).
Proof.
  intros Hc.
  destruct (cycle_cases s) as [e Hv Hev Hself|Hv Hev Hself|Hidle Hev Hself|wn Hidle Hev Hself
                              |evs Hpaused Hevs Hev Hself|Hpaused Hstart Hev Hself];
    rewrite Hself; try exact Hc.
  - unfold coupled, paused_at. cbn. split; [discriminate|reflexivity].
  - unfold coupled, cleared. cbn. split; [discriminate|congruence].
Qed.

Lemma fetch_frame (s : state) :
  emitted (fetch_outages s) = [] /\
  session (self (final (fetch_outages s))) = session (self s) /\
  group (dtek (self (final (fetch_outages s)))) = group (dtek (self s)) /\
  (exists k, env (final (fetch_outages s)) = after_reads k (after_download (env s))) /\
  (exists b, value (fetch_outages s) = Ok b).
Proof.
  destruct (fetch_outcomes s) as [Hrun|today tomorrow Hrun]; rewrite Hrun;
    cbn [value final emitted self env].
  - split; [reflexivity|]. split; [reflexivity|]. split; [reflexivity|].
    split; [exists 0%nat; reflexivity|eexists; reflexivity].
  - split; [reflexivity|]. split; [reflexivity|]. split; [reflexivity|].
    split; [exists 1%nat; reflexivity|eexists; reflexivity].
Qed.

Lemma daemon_pass_value (nu : datetime) (s : state) :
  exists nu', value (daemon_pass nu s) = Ok nu'.
Proof. rewrite daemon_pass_run. eexists. reflexivity. Qed.

Lemma daemon_pass_sleeps (nu : datetime) (s : state) :
  sleeps CHECK_INTERVAL (emitted (daemon_pass nu s)) = 1%nat.
Proof.
  rewrite daemon_pass_run. cbn [emitted]. rewrite sleeps_app, cycle_sleeps. reflexivity.
Qed.

Lemma daemon_loop_sleeps (n : nat) (nu : datetime) (s : state) :
  value (daemon_loop n nu s) = Ok tt /\
  sleeps CHECK_INTERVAL (emitted (daemon_loop n nu s)) = n.
Proof.
  revert nu s. induction n as [|n IH]; intros nu s; [split; reflexivity|].
  cbn [daemon_loop].
  destruct (daemon_pass_value nu s) as [nu' Hv].
  rewrite (bind_ok _ _ _ _ Hv). cbn [value emitted].
  destruct (IH nu' (final (daemon_pass nu s))) as [Hv' Hs'].
  split; [exact Hv'|].
  rewrite sleeps_app, daemon_pass_sleeps, Hs'. reflexivity.
Qed.

(** X2.  The daemon loop never ends by an exception, whatever the feed,
    the schedule and the printer do, and every pass of the loop sleeps
    [CHECK_INTERVAL] seconds exactly once: [n] passes, [n] sleeps. *)
Theorem daemon_sleeps_every_pass (n : nat) (s : state) :
  value (run_daemon n s) = Ok tt /\
  sleeps CHECK_INTERVAL (emitted (run_daemon n s)) = n.
Proof.
  unfold run_daemon.
  rewrite (bind_ok update_outages _ _ tt) by (rewrite update_outages_run; reflexivity).
  rewrite update_outages_run. cbn [value final emitted app].
  rewrite (bind_ok _get_next_midnight _ _ _ (f_equal value (get_next_midnight_run _))).
  rewrite get_next_midnight_run. cbn [value final emitted app].
  apply daemon_loop_sleeps.
Qed.

Lemma fetch_keeps_coupling (s : state) :
  coupled (self s) -> coupled (self (final (fetch_outages s))).
Proof.
  intros Hc. destruct (fetch_frame s) as (_ & Hs & _).
  unfold session in Hs. unfold coupled in *.
  injection Hs as Hp Ht _. rewrite Hp, Ht. exact Hc.
Qed.

Lemma pass_state_coupled (nu : datetime) (s : state) :
  coupled (self s) -> coupled (self (pass_state nu s)).
Proof.
  intros Hc. unfold pass_state. cbv zeta.
  destruct (micros nu <=? micros (reading 0 s)); cbn [self]; [|exact Hc].
  apply (fetch_keeps_coupling {| self := self s; env := after_reads 1 (env s) |}). exact Hc.
Qed.

Lemma daemon_pass_coupled (nu : datetime) (s : state) :
  coupled (self s) -> coupled (self (final (daemon_pass nu s))).
Proof.
  intros Hc. rewrite daemon_pass_run. cbn [final].
  apply cycle_keeps_coupling, pass_state_coupled, Hc.
Qed.

Lemma daemon_loop_coupled (n : nat) (nu : datetime) (s : state) :
  coupled (self s) -> coupled (self (final (daemon_loop n nu s))).
Proof.
  revert nu s. induction n as [|n IH]; intros nu s Hc; [exact Hc|].
  cbn [daemon_loop].
  destruct (daemon_pass_value nu s) as [nu' Hv].
  rewrite (bind_ok _ _ _ _ Hv). cbn [final].
  apply IH, daemon_pass_coupled, Hc.
Qed.

(** X3.  The daemon keeps the pause session coherent: started with the
    manager paused exactly when a pause start time is recorded, it is so
    again after the first refresh and any number of passes. *)
Theorem daemon_keeps_coupling (n : nat) (s : state) :
  coupled (self s) -> coupled (self (final (run_daemon n s))).
Proof.
  intros Hc. unfold run_daemon.
  rewrite (bind_ok update_outages _ _ tt) by (rewrite update_outages_run; reflexivity).
  rewrite update_outages_run. cbn [value final emitted app].
  rewrite (bind_ok _get_next_midnight _ _ _ (f_equal value (get_next_midnight_run _))).
  rewrite get_next_midnight_run. cbn [value final emitted app].
  apply daemon_loop_coupled. cbn [self].
  apply fetch_keeps_coupling, Hc.
Qed.

(** X4.  A pass of the daemon loop downloads the feed exactly when the
    clock has reached [next_update].  When it has not, the pass leaves
    [next_update] and the stored schedule as they were; when it has, the
    new [next_update] is a day boundary, hour and minute zero. *)
Theorem daemon_pass_refresh (nu : datetime) (s : state) :
  let due := micros nu <=? micros (reading 0 s) in
  feed_reads (env (final (daemon_pass nu s))) =
    (if due then S (feed_reads (env s)) else feed_reads (env s)) /\
  (due = false ->
   value (daemon_pass nu s) = Ok nu /\
   dtek (self (final (daemon_pass nu s))) = dtek (self s)) /\
  (due = true ->
   exists m, value (daemon_pass nu s) = Ok m /\
             hour m = 0 /\ minute m = 0 /\ micros m mod day_micros = 0).
Proof.
  cbv zeta. rewrite daemon_pass_run. cbn [value final].
  destruct (cycle_world (pass_state nu s)) as (k & j & ->).
  cbn [later feed_reads]. rewrite cycle_keeps_schedule.
  unfold pass_state. cbv zeta.
  destruct (micros nu <=? micros (reading 0 s)); cbn [self env after_reads feed_reads].
  - destruct (fetch_frame {| self := self s; env := after_reads 1 (env s) |})
      as (_ & _ & _ & (k' & ->) & _).
    cbn [after_reads after_download feed_reads env].
    split; [reflexivity|]. split; [discriminate|]. intros _.
    eexists. split; [reflexivity|].
    match goal with
    | |- hour (at_midnight (plus_one_day ?t)) = 0 /\ _ =>
      destruct (at_midnight_next_day t) as (_ & Hh & Hm & Hd & _)
    end.
    auto.
  - split; [reflexivity|]. split; [|discriminate]. auto.
Qed.

Lemma bind_sleep {B : Type} (n : Z) (k : unit -> M B) (s : state) :
  bind (sleep n) k s =
  {| value := value (k tt s); final := final (k tt s);
     emitted := Sleep n :: emitted (k tt s) |}.
Proof. reflexivity. Qed.

Lemma bind_call_script {B : Type} (script : string) (k : bool -> M B) (s : state) :
  bind (_call_script script) k s =
  {| value := value (k (printer_answer 0 s) {| self := self s; env := later 0 1 (env s) |});
     final := final (k (printer_answer 0 s) {| self := self s; env := later 0 1 (env s) |});
     emitted := Script script ::
                emitted (k (printer_answer 0 s) {| self := self s; env := later 0 1 (env s) |}) |}.
Proof. reflexivity. Qed.

Lemma countdown_run (n : nat) (s : state) :
  countdown n s = {| value := Ok tt; final := s; emitted := repeat (Sleep 1) n |}.
Proof.
  induction n as [|n IH]; [reflexivity|].
  cbn [countdown repeat]. rewrite bind_sleep, IH. reflexivity.
Qed.

Lemma resume_print_run (s : state) :
  resume_print s =
  {| value := Ok (printer_answer 0 s && printer_answer 1 s);
     final := {| self := self s;
                 env := later 0 (if printer_answer 0 s then 2 else 1) (env s) |};
     emitted := if printer_answer 0 s
                then [Script gcode_heat; Sleep 2; Script "RESUME"]
                else [Script gcode_heat] |}.
Proof.
  unfold resume_print. rewrite bind_call_script.
  unfold printer_answer. destruct (printer_ok (env s) (0 + printer_calls (env s))); cbn [negb andb].
  - rewrite bind_sleep. reflexivity.
  - reflexivity.
Qed.

Lemma after_park_run (s : state) :
  (countdown 60 ;;; _ <- resume_print ;; ret tt)%prog s =
  {| value := Ok tt;
     final := final (resume_print s);
     emitted := repeat (Sleep 1) 60 ++ emitted (resume_print s) |}.
Proof.
  rewrite (bind_ok (countdown 60) _ s tt) by (rewrite countdown_run; reflexivity).
  rewrite countdown_run. cbn [value final emitted].
  rewrite (bind_ok resume_print _ s _ (f_equal value (resume_print_run s))).
  cbn [ret value final emitted]. rewrite app_nil_r. reflexivity.
Qed.

Lemma test_pause_resume_run (s : state) :
  test_pause_resume s =
  if printer_answer 0 s then
    let s2 := {| self := self s; env := later 0 2 (env s) |} in
    {| value := Ok tt;
       final := final (resume_print s2);
       emitted := [Script "PAUSE"; Sleep 1; Script gcode_park] ++
                  repeat (Sleep 1) 60 ++ emitted (resume_print s2) |}
  else
    {| value := Ok tt;
       final := {| self := self s; env := later 0 1 (env s) |};
       emitted := [Script "PAUSE"] |}.
Proof.
  unfold test_pause_resume, pause_print, set_heaters_off.
  rewrite bind_call_script.
  destruct (printer_answer 0 s); [|reflexivity].
  rewrite bind_sleep, bind_call_script.
  cbn [self env].
  change (later 0 1 (later 0 1 (env s))) with (later 0 2 (env s)).
  rewrite after_park_run. reflexivity.
Qed.

(** X5.  The pause/resume test leaves the manager as it was and never
    raises.  When the printer refuses [PAUSE] nothing else is sent;
    otherwise the printer is parked whatever it answers, sixty sleeps of
    one second follow, then the heaters are set and, only when that
    request succeeds, [RESUME] is sent after two seconds. *)
Theorem smoke_test_trace (s : state) :
  value (test_pause_resume s) = Ok tt /\
  self (final (test_pause_resume s)) = self s /\
  emitted (test_pause_resume s) =
    (if printer_answer 0 s then
       [Script "PAUSE"; Sleep 1; Script gcode_park] ++ repeat (Sleep 1) 60 ++
       (if printer_answer 2 s
        then [Script gcode_heat; Sleep 2; Script "RESUME"]
        else [Script gcode_heat])
     else [Script "PAUSE"])%list.
Proof.
  rewrite test_pause_resume_run.
  destruct (printer_answer 0 s); [|repeat split; reflexivity].
  cbv zeta. rewrite resume_print_run. cbn [value final emitted self].
  repeat split.
Qed.

Lemma idle_cycle_never_resumes (s : state) :
  is_paused (self s) = false -> resume_issued (emitted (check_and_manage s)) = false.
Proof.
  intros Hidle.
  destruct (cycle_cases s) as [e Hv Hev Hself|Hv Hev Hself|_ Hev Hself|wn _ Hev Hself
                              |evs Hpaused Hevs Hev Hself|Hpaused Hstart Hev Hself];
    try congruence; rewrite Hev; reflexivity.
Qed.

Lemma run_once_run (s : state) :
  run_once s =
  {| value := value (check_and_manage (final (fetch_outages s)));
     final := final (check_and_manage (final (fetch_outages s)));
     emitted := emitted (check_and_manage (final (fetch_outages s))) |}.
Proof.
  unfold run_once.
  rewrite (bind_ok update_outages _ _ tt) by (rewrite update_outages_run; reflexivity).
  rewrite update_outages_run. reflexivity.
Qed.

(** X6.  The [once] mode builds a new manager, which is not paused: one
    refresh and one cycle later it has sent neither the heater command
    of a resume nor [RESUME], whatever the clock, the feed and the
    printer are. *)
Theorem once_never_resumes (prog : string) (rest : list string) (passes : nat) (s : state) :
  resume_issued (emitted (main (prog :: "once" :: rest) passes s)) = false.
Proof.
  cbn [main]. change (String.eqb "once" "once") with true. cbv iota.
  unfold new_manager. rewrite bind_update_self. rewrite run_once_run. cbn [emitted].
  apply idle_cycle_never_resumes.
  destruct (fetch_frame {| self := init; env := env s |}) as (_ & Hs & _).
  unfold session in Hs. injection Hs as Hp _ _. rewrite Hp. reflexivity.
Qed.

(** X7.  When the evaluator asks to pause and the print is not paused,
    the cycle sends [PAUSE].  If the printer accepts it, the manager
    records the pause with the next clock reading and the window name,
    sleeps one second and parks the printer, the answer to the parking
    request being ignored; if the printer refuses, the manager is left
    as it was and nothing else is sent. *)
Theorem pause_transition (s : state) (wn : option string) (mu : option float) :
  is_paused (self s) = false ->
  value (get_next_danger_window s) = Ok (true, wn, mu) ->
  value (check_and_manage s) = Ok tt /\
  (if printer_answer 0 s
   then emitted (check_and_manage s) = [Script "PAUSE"; Sleep 1; Script gcode_park] /\
        self (final (check_and_manage s)) = paused_at (reading 2 s) wn (self s)
   else emitted (check_and_manage s) = [Script "PAUSE"] /\
        self (final (check_and_manage s)) = self s).
Proof.
  intros Hidle Hsig.
  destruct (evaluator_value s) as (ch & Hch & Hval). rewrite Hval in Hsig.
  destruct (cycle_idle_pause s ch Hch wn mu Hidle Hsig) as (Hv & Hev & Hself).
  split; [exact Hv|].
  destruct (printer_answer 0 s); split; assumption.
Qed.

Lemma pause_transition_witness :
  emitted (check_and_manage (poll_at window_16_19 15 55 0)) =
    [Script "PAUSE"; Sleep 1; Script gcode_park] /\
  self (final (check_and_manage (poll_at window_16_19 15 55 0))) =
    paused_at (at_time 0 15 55 0) (Some "16:00-19:00") window_16_19.
Proof.
  exact (proj2 (pause_transition (poll_at window_16_19 15 55 0)
                  (Some "16:00-19:00") (Some 0x1.7200000000001p+7%float)
                  eq_refl ltac:(vm_compute; reflexivity))).
Defined.

Lemma zero_not_infinite (x : float) : is_zero x = true -> is_infinity x = false.
Proof.
  unfold is_zero, is_infinity. rewrite !FloatAxioms.eqb_spec, FloatAxioms.abs_spec.
  replace (Prim2SF zero) with (S754_zero false) by (vm_compute; reflexivity).
  replace (Prim2SF infinity) with (S754_infinity false) by (vm_compute; reflexivity).
  destruct (Prim2SF x) as [sx|sx| |sx mx ex]; cbn; try discriminate; try reflexivity;
    destruct sx; cbn; intros; try discriminate; reflexivity.
Qed.

Lemma py_int_not_finite (x : float) :
  is_finite x = false -> exists e, py_int x = Raise e.
Proof.
  unfold is_finite, py_int, Prim2SF. intros H.
  destruct (is_nan x); [eexists; reflexivity|].
  cbn [orb negb] in H. apply negb_false_iff in H.
  destruct (is_zero x) eqn:Hz.
  - rewrite (zero_not_infinite x Hz) in H. discriminate.
  - rewrite H. eexists. reflexivity.
Qed.

Lemma window_name_not_finite (start end_ : float) :
  is_finite start && is_finite end_ = false ->
  exists e, window_name_of start end_ = Raise e.
Proof.
  intros H. unfold window_name_of, hhmm.
  destruct (is_finite start) eqn:Hs.
  - cbn [andb] in H. destruct (py_int_not_finite end_ H) as [e He].
    destruct (py_int start) as [h|e1]; cbn [rbind]; [|eexists; reflexivity].
    destruct (py_int (py_mod1 start * float_of_int 60)) as [m|e2]; cbn [rbind];
      [|eexists; reflexivity].
    rewrite He. cbn [rbind]. eexists. reflexivity.
  - destruct (py_int_not_finite start Hs) as [e He]. rewrite He. cbn [rbind].
    eexists. reflexivity.
Qed.

Lemma danger_scan_cons_raise (ch start end_ : float) (rest : list interval) (e : exn) :
  window_name_of start end_ = Raise e ->
  danger_scan ch ((start, end_) :: rest) = Raise e.
Proof.
  intros He. cbv beta iota fix delta [danger_scan].
  rewrite pause_point_of_ok. cbn [rbind]. rewrite He. reflexivity.
Qed.

(** X8.  The window name is formatted before any comparison.  When the
    first window that is not over has an infinite or NaN bound, the
    cycle raises, sends nothing and leaves the manager as it was: such a
    window neither pauses the print nor lets a paused print resume. *)
Theorem unwritable_window_stops_cycle (s : state) (ch start end_ : float)
    (past rest : list interval) :
  current_hour_of (reading 0 s) = Ok ch ->
  schedule_for s = (past ++ (start, end_) :: rest)%list ->
  forallb labelled past = true ->
  forallb (already_past ch) past = true ->
  is_finite start && is_finite end_ = false ->
  exists e,
    value (check_and_manage s) = Raise e /\
    emitted (check_and_manage s) = [] /\
    self (final (check_and_manage s)) = self s.
Proof.
  intros Hch Hsched Hlab Hpast Hbad.
  destruct (window_name_not_finite start end_ Hbad) as [e He].
  exists e. apply (cycle_evaluator_raises s ch Hch).
  rewrite Hsched, (danger_scan_past ch past _ Hlab Hpast).
  rewrite (danger_scan_cons_raise ch start end_ rest e He). reflexivity.
Qed.

Lemma unwritable_window_stops_cycle_witness :
  exists e,
    value (check_and_manage {| self := stuck_manager;
                               env := steady_world (at_time 0 18 0 0) true |}) = Raise e /\
    emitted (check_and_manage {| self := stuck_manager;
                                 env := steady_world (at_time 0 18 0 0) true |}) = [] /\
    self (final (check_and_manage {| self := stuck_manager;
                                     env := steady_world (at_time 0 18 0 0) true |}))
      = stuck_manager.
Proof.
  apply (unwritable_window_stops_cycle
           {| self := stuck_manager; env := steady_world (at_time 0 18 0 0) true |}
           18%float infinity 1%float [] []); vm_compute; reflexivity.
Defined.

Lemma SFleb_trans (x y z : spec_float) :
  SFleb x y = true -> SFleb y z = true -> SFleb x z = true.
Proof.
  unfold SFleb.
  destruct x as [sx|sx| |sx mx ex], y as [sy|sy| |sy my ey], z as [sz|sz| |sz mz ez];
    simpl; try discriminate; try reflexivity;
    try (destruct sx; simpl; try discriminate; try reflexivity);
    try (destruct sy; simpl; try discriminate; try reflexivity);
    try (destruct sz; simpl; try discriminate; try reflexivity).
  all: change (Pos.compare_cont Eq mx my) with (Pos.compare mx my);
       change (Pos.compare_cont Eq my mz) with (Pos.compare my mz);
       change (Pos.compare_cont Eq mx mz) with (Pos.compare mx mz).
  all: destruct (Z.compare_spec ex ey), (Z.compare_spec ey ez), (Z.compare_spec ex ez);
       simpl; try discriminate; try reflexivity; try lia.
  all: destruct (Pos.compare_spec mx my), (Pos.compare_spec my mz), (Pos.compare_spec mx mz);
       simpl; try discriminate; try reflexivity; try lia.
Qed.

Lemma leb_trans (a b c : float) :
  (a <=? b)%float = true -> (b <=? c)%float = true -> (a <=? c)%float = true.
Proof. rewrite !leb_spec. apply SFleb_trans. Qed.

Lemma already_past_later (a b : float) (iv : interval) :
  (a <=? b)%float = true -> already_past a iv = true -> already_past b iv = true.
Proof.
  intros Hab H. unfold already_past in *. apply andb_prop in H as [H1 H2].
  rewrite (leb_trans _ _ _ H1 Hab), (leb_trans _ _ _ H2 Hab). reflexivity.
Qed.

Lemma last_hour_table :
  forallb (fun m => match int_truediv m 60 with
                    | Ok frac => (23 <=? float_of_int 23 + frac)%float
                    | Raise _ => false
                    end) (seqZ 0 60) = true.
Proof. vm_compute. reflexivity. Qed.

Lemma last_hour_current (t : datetime) :
  hour t = 23 -> exists ch, current_hour_of t = Ok ch /\ (23 <=? ch)%float = true.
Proof.
  intros Hh. unfold current_hour_of. rewrite Hh.
  pose proof (forallb_seqZ _ _ _ last_hour_table (minute t) ltac:(pose proof (minute_range t); lia)) as H.
  cbv beta in H.
  destruct (int_truediv (minute t) 60) as [frac|]; [|discriminate].
  exists (float_of_int 23 + frac)%float. split; [reflexivity|exact H].
Qed.

(** X9.  From 23:00 to 23:59 the evaluator walks tomorrow's list only.
    When each of tomorrow's windows has finite bounds, its pause point
    and its end at or before 23:00, it reports no window: a window that
    starts right after midnight gets no pause ahead of it. *)
Theorem last_hour_blind (s : state) :
  hour (reading 0 s) = 23 ->
  hour (reading 1 s) = 23 ->
  forallb labelled (default [] (outages (dtek (self s)) !! "tomorrow")) = true ->
  forallb (already_past 23) (default [] (outages (dtek (self s)) !! "tomorrow")) = true ->
  value (get_next_danger_window s) = Ok (false, None, None).
Proof.
  intros H0 H1 Hlab Hpast.
  destruct (last_hour_current _ H0) as (ch & Hch & Hle).
  rewrite (get_next_danger_window_run s ch Hch). cbn [value].
  unfold schedule_for, period_at. rewrite H1. cbn [Z.eqb Pos.eqb].
  rewrite <- (app_nil_r (default [] _)).
  rewrite (danger_scan_past ch _ [] Hlab); [reflexivity|].
  rewrite forallb_forall in *. intros iv Hin.
  apply (already_past_later 23 ch); auto.
Qed.

Lemma last_hour_blind_witness :
  value (get_next_danger_window (poll_at midnight_window 23 58 0)) = Ok (false, None, None).
Proof.
  apply (last_hour_blind (poll_at midnight_window 23 58 0)); vm_compute; reflexivity.
Defined.

Lemma SFltb_leb_trans (x y z : spec_float) :
  SFltb x y = true -> SFleb y z = true -> SFltb x z = true.
Proof.
  unfold SFleb, SFltb.
  destruct x as [sx|sx| |sx mx ex], y as [sy|sy| |sy my ey], z as [sz|sz| |sz mz ez];
    simpl; try discriminate; try reflexivity;
    try (destruct sx; simpl; try discriminate; try reflexivity);
    try (destruct sy; simpl; try discriminate; try reflexivity);
    try (destruct sz; simpl; try discriminate; try reflexivity).
  all: change (Pos.compare_cont Eq mx my) with (Pos.compare mx my);
       change (Pos.compare_cont Eq my mz) with (Pos.compare my mz);
       change (Pos.compare_cont Eq mx mz) with (Pos.compare mx mz).
  all: destruct (Z.compare_spec ex ey), (Z.compare_spec ey ez), (Z.compare_spec ex ez);
       simpl; try discriminate; try reflexivity; try lia.
  all: destruct (Pos.compare_spec mx my), (Pos.compare_spec my mz), (Pos.compare_spec mx mz);
       simpl; try discriminate; try reflexivity; try lia.
Qed.

Lemma ltb_leb_trans (a b c : float) :
  (a <? b)%float = true -> (b <=? c)%float = true -> (a <? c)%float = true.
Proof. rewrite !ltb_spec, leb_spec. apply SFltb_leb_trans. Qed.




















Lemma collect_minutes (ss : list slot) :
  Forall in_minutes ss ->
  collect (map slot_interval ss) =
    Ok (map (fun sl => (hour_of_minute (slot_start sl), hour_of_minute (slot_end sl))) ss) /\
  log_intervals
    (map (fun sl => (hour_of_minute (slot_start sl), hour_of_minute (slot_end sl))) ss) = Ok tt.
Proof.
  induction 1 as [|sl ss [Hs He] _ [Hl Hlog]].
  - split; reflexivity.
  - cbn [map collect log_intervals]. unfold slot_interval at 1.
    destruct (minute_hours (slot_start sl) Hs) as [-> Ha].
    destruct (minute_hours (slot_end sl) He) as [-> Hb].
    cbn [rbind]. rewrite Hl. cbn [rbind]. split; [reflexivity|].
    destruct (hhmm (hour_of_minute (slot_start sl))); [|discriminate].
    destruct (hhmm (hour_of_minute (slot_end sl))); [|discriminate].
    cbn [rbind]. exact Hlog.
Qed.

Lemma parse_day_entry (today tomorrow : list slot) (period : string) (ss : list slot) :
  dict_lookup period [("today", day_entry today); ("tomorrow", day_entry tomorrow)]
    = Some (day_entry ss) ->
  Forall in_minutes (List.filter is_definite ss) ->
  (sl <- period_slots (group_entry today tomorrow) period ;; _parse_slots sl)%res
    = Ok (minute_intervals ss).
Proof.
  intros Hday Hss. unfold period_slots, group_entry, py_get. rewrite Hday.
  change ((sl <- Ok (PList (map py_of_slot ss)) ;; _parse_slots sl)%res = Ok (minute_intervals ss)).
  unfold _parse_slots. cbn [py_iter rbind].
  rewrite parse_slots_loop_typed.
  destruct (collect_minutes _ Hss) as [-> _]. reflexivity.
Qed.

(** X11.  A feed that lists, for the manager's group, today's and
    tomorrow's slots with integer minutes from 0 to 1440 is stored in
    full: the "Definite" slots of each day in order, as hours, the time
    of the refresh as the next clock reading; the fetch returns [True]
    and sends nothing to the printer. *)
Theorem fetch_stores_schedule (s : state) (items : list (string * pyval))
    (today tomorrow : list slot) :
  feed (env s) (feed_reads (env s)) = Ok (PDict items) ->
  dict_lookup (group (dtek (self s))) items = Some (group_entry today tomorrow) ->
  Forall in_minutes (List.filter is_definite today) ->
  Forall in_minutes (List.filter is_definite tomorrow) ->
  fetch_outages s =
  {| value := Ok true;
     final := {| self := refreshed (minute_intervals today) (minute_intervals tomorrow)
                                   (reading 0 s) (self s);
                 env := after_reads 1 (after_download (env s)) |};
     emitted := [] |}.
Proof.
  intros Hfeed Hgroup Htoday Htomorrow.
  assert (Hin : py_contains (group (dtek (self s))) (PDict items) = Ok true)
    by (unfold py_contains; rewrite Hgroup; reflexivity).
  assert (Hitem : py_getitem (PDict items) (group (dtek (self s)))
                  = Ok (group_entry today tomorrow))
    by (unfold py_getitem; rewrite Hgroup; reflexivity).
  pose proof (parse_day_entry today tomorrow "today" today eq_refl Htoday) as H1.
  pose proof (parse_day_entry today tomorrow "tomorrow" tomorrow eq_refl Htomorrow) as H2.
  destruct (collect_minutes _ Htoday) as [_ Hlog1].
  destruct (collect_minutes _ Htomorrow) as [_ Hlog2].
  fold (minute_intervals today) in Hlog1. fold (minute_intervals tomorrow) in Hlog2.
  fetch_run. reflexivity.
Qed.

Lemma fetch_stores_schedule_witness :
  value (fetch_outages refresh_state) = Ok true /\
  outages (dtek (self (final (fetch_outages refresh_state)))) !! "today"
    = Some [(16, 19)%float].
Proof.
  rewrite (fetch_stores_schedule refresh_state
             [("1.1", group_entry evening_slots [])] evening_slots []).
  - split; [reflexivity|]. vm_compute. reflexivity.
  - reflexivity.
  - reflexivity.
  - repeat constructor; cbn; lia.
  - constructor.
Defined.

(** X12.  A refresh of the schedule never raises, sends nothing to the
    printer, leaves the pause session as it was and makes exactly one
    request to the feed. *)
Theorem update_outages_frame (s : state) :
  value (update_outages s) = Ok tt /\
  emitted (update_outages s) = [] /\
  session (self (final (update_outages s))) = session (self s) /\
  feed_reads (env (final (update_outages s))) = S (feed_reads (env s)) /\
  printer_calls (env (final (update_outages s))) = printer_calls (env s).
Proof.
  rewrite update_outages_run. cbn [value final emitted].
  destruct (fetch_frame s) as (_ & Hsession & _ & (k & Henv) & _).
  rewrite Hsession, Henv. repeat split; reflexivity.
Qed.

(** X13.  A management cycle never requests the feed and never changes
    the stored schedule, whether it returns or raises. *)
Theorem cycle_frame (s : state) :
  dtek (self (final (check_and_manage s))) = dtek (self s) /\
  feed_reads (env (final (check_and_manage s))) = feed_reads (env s) /\
  feed (env (final (check_and_manage s))) = feed (env s).
Proof.
  split; [apply cycle_keeps_schedule|].
  destruct (cycle_world s) as (k & j & ->). split; reflexivity.
Qed.

Lemma minute_labels :
  forallb (fun m => match hhmm (hour_of_minute m) with
                    | Ok l => (String.eqb l (label_of_minute m) ||
                               String.eqb l (label_of_minute (m - 1))) &&
                              (negb (m mod 15 =? 0) || String.eqb l (label_of_minute m))
                    | Raise _ => false
                    end) (seqZ 0 1441) = true.
Proof. vm_compute. reflexivity. Qed.

(** X14.  The clock text of a bound parsed from minute [m] of the day is
    the text of [m] or of the minute before it, and it is the text of [m]
    at every quarter of an hour. *)
Theorem window_label_minutes (m : Z) :
  0 <= m <= 1440 ->
  (hhmm (hour_of_minute m) = Ok (label_of_minute m) \/
   hhmm (hour_of_minute m) = Ok (label_of_minute (m - 1))) /\
  (m mod 15 = 0 -> hhmm (hour_of_minute m) = Ok (label_of_minute m)).
Proof.
  intros Hm.
  pose proof (forallb_seqZ _ 0 1441 minute_labels m ltac:(lia)) as H. cbv beta in H.
  destruct (hhmm (hour_of_minute m)) as [l|]; [|discriminate].
  apply andb_prop in H as [H1 H2]. split.
  - apply orb_prop in H1 as [H1|H1]; apply String.eqb_eq in H1; subst; auto.
  - intros Hq. rewrite Hq in H2. cbn [Z.eqb negb orb] in H2.
    apply String.eqb_eq in H2. subst. reflexivity.
Qed.

Lemma window_label_minutes_witness :
  hhmm (hour_of_minute 980) = Ok "16:19" /\ hhmm (hour_of_minute 960) = Ok "16:00".
Proof.
  split.
  - destruct (proj1 (window_label_minutes 980 ltac:(lia))) as [H|H].
    + exfalso. revert H. vm_compute. intros H.
      apply (f_equal (fun r => match r with Ok l => String.eqb l "16:20" | Raise _ => false end)) in H.
      vm_compute in H. discriminate.
    + exact H.
  - exact (proj2 (window_label_minutes 960 ltac:(lia)) eq_refl).
Defined.

Lemma alternates_app (b : bool) (l1 l2 : list event) :
  alternates b (l1 ++ l2) =
  match alternates b l1 with
  | Some b' => alternates b' l2
  | None => None
  end.
Proof.
  revert b. induction l1 as [|[script|n] l1 IH]; intros b; cbn [alternates app].
  - reflexivity.
  - destruct (String.eqb script "PAUSE"); [destruct b; [reflexivity|apply IH]|].
    destruct (String.eqb script "RESUME"); [destruct b; [apply IH|reflexivity]|].
    apply IH.
  - apply IH.
Qed.

Lemma cycle_alternates (s : state) :
  responsive (env s) ->
  alternates (is_paused (self s)) (emitted (check_and_manage s)) =
    Some (is_paused (self (final (check_and_manage s)))).
Proof.
  intros Hok.
  assert (Ha : forall n, printer_answer n s = true) by (intros n; apply Hok).
  destruct (current_hour_total (reading 0 s)) as [ch Hch].
  destruct (danger_scan ch (schedule_for s)) as [[[appr wn] mu]|e] eqn:Hscan.
  2:{ destruct (cycle_evaluator_raises s ch Hch e Hscan) as (_ & -> & ->). reflexivity. }
  destruct (is_paused (self s)) eqn:Hp.
  - destruct (time_paused_of (reading 2 s) (pause_start_time (self s))) as [tp|e] eqn:Htp.
    + destruct (cycle_paused s ch Hch _ tp Hp Hscan Htp) as (_ & -> & ->).
      rewrite !Ha.
      destruct (float_of_int WAIT_AFTER <=? tp)%float; cbn [andb]; [|rewrite Hp; reflexivity].
      reflexivity.
    + destruct (cycle_paused_error s ch Hch _ e Hp Hscan Htp) as (_ & -> & ->).
      rewrite Hp. reflexivity.
  - destruct appr.
    + destruct (cycle_idle_pause s ch Hch wn mu Hp Hscan) as (_ & -> & ->).
      rewrite Ha. reflexivity.
    + destruct (cycle_idle_quiet s ch Hch wn mu Hp Hscan) as (_ & -> & ->).
      rewrite Hp. reflexivity.
Qed.

Lemma cycle_responsive (s : state) :
  responsive (env s) -> responsive (env (final (check_and_manage s))).
Proof. intros Hok. destruct (cycle_world s) as (k & j & ->). exact Hok. Qed.

Lemma fetch_responsive (s : state) :
  responsive (env s) -> responsive (env (final (fetch_outages s))).
Proof.
  intros Hok. destruct (fetch_frame s) as (_ & _ & _ & (k & ->) & _). exact Hok.
Qed.

Lemma fetch_keeps_paused (s : state) :
  is_paused (self (final (fetch_outages s))) = is_paused (self s).
Proof.
  destruct (fetch_frame s) as (_ & Hs & _).
  exact (f_equal (fun x => fst (fst x)) Hs).
Qed.

Lemma pass_state_frame (nu : datetime) (s : state) :
  is_paused (self (pass_state nu s)) = is_paused (self s) /\
  (responsive (env s) -> responsive (env (pass_state nu s))).
Proof.
  unfold pass_state. cbv zeta.
  destruct (micros nu <=? micros (reading 0 s)); cbn [self env].
  - split.
    + apply (fetch_keeps_paused {| self := self s; env := after_reads 1 (env s) |}).
    + intros Hok.
      apply (fetch_responsive {| self := self s; env := after_reads 1 (env s) |}), Hok.
  - split; [reflexivity|]. intros Hok. exact Hok.
Qed.

Lemma daemon_pass_alternates (nu : datetime) (s : state) :
  responsive (env s) ->
  alternates (is_paused (self s)) (emitted (daemon_pass nu s)) =
    Some (is_paused (self (final (daemon_pass nu s)))) /\
  responsive (env (final (daemon_pass nu s))).
Proof.
  intros Hok. rewrite daemon_pass_run. cbn [final emitted].
  destruct (pass_state_frame nu s) as [Hp Hr].
  split; [|apply cycle_responsive, Hr, Hok].
  rewrite alternates_app, <- Hp, (cycle_alternates _ (Hr Hok)). reflexivity.
Qed.

Lemma daemon_loop_alternates (n : nat) (nu : datetime) (s : state) :
  responsive (env s) ->
  alternates (is_paused (self s)) (emitted (daemon_loop n nu s)) =
    Some (is_paused (self (final (daemon_loop n nu s)))).
Proof.
  revert nu s. induction n as [|n IH]; intros nu s Hok; [reflexivity|].
  cbn [daemon_loop].
  destruct (daemon_pass_value nu s) as [nu' Hv].
  rewrite (bind_ok _ _ _ _ Hv). cbn [final emitted].
  destruct (daemon_pass_alternates nu s Hok) as [Hpass Hok'].
  rewrite alternates_app, Hpass. apply IH, Hok'.
Qed.

(** X15.  With a printer that accepts every script, the commands of the
    daemon alternate: [PAUSE] is never sent to a print the manager holds
    paused, [RESUME] never to one it does not, and the manager's flag
    after the run is the one the commands sent lead to. *)
Theorem daemon_commands_alternate (n : nat) (s : state) :
  responsive (env s) ->
  alternates (is_paused (self s)) (emitted (run_daemon n s)) =
    Some (is_paused (self (final (run_daemon n s)))).
Proof.
  intros Hok. unfold run_daemon.
  rewrite (bind_ok update_outages _ _ tt) by (rewrite update_outages_run; reflexivity).
  rewrite update_outages_run. cbn [value final emitted app].
  rewrite (bind_ok _get_next_midnight _ _ _ (f_equal value (get_next_midnight_run _))).
  rewrite get_next_midnight_run. cbn [value final emitted app].
  rewrite <- (fetch_keeps_paused s).
  apply (daemon_loop_alternates n _
           {| self := self (final (fetch_outages s));
              env := after_reads 1 (env (final (fetch_outages s))) |}).
  cbn [env]. apply (fetch_responsive s Hok).
Qed.

Lemma daemon_commands_alternate_witness :
  alternates false (emitted (run_daemon 3 (poll_at window_16_19 15 55 0))) =
    Some (is_paused (self (final (run_daemon 3 (poll_at window_16_19 15 55 0))))).
Proof.
  apply (daemon_commands_alternate 3 (poll_at window_16_19 15 55 0)).
  intros n. reflexivity.
Defined.

Lemma daemon_keeps_coupling_witness :
  coupled (self (final (run_daemon 2 (poll_at window_16_19 15 55 0)))).
Proof.
  apply daemon_keeps_coupling.
  split; [discriminate|]. intros H. exfalso. apply H. reflexivity.
Defined.
